(** * AutoRestartPod operator: the reconciler and its cron schedule resolver

    A shallow embedding of the two [Reconcile] functions of the repository,
    [internal/controller/autorestartpod_controller.go] (module [Controller])
    and the unnamed source file [part_000] (module [Part000]), together with
    [parseCronSchedule], which both files define identically.

    The Kubernetes client, the cron library, the label-selector library and
    the wall clock are collaborators: their behaviour during one invocation
    is given by a record [Env]; the cluster they act upon, the calls made to
    the client and the log lines written are kept in an explicit [World]
    that every operation threads through. *)

From Stdlib Require Import ZArith List String Bool Lia.
Import ListNotations.
Local Open Scope string_scope.
Local Open Scope list_scope.
Local Open Scope Z_scope.

(** ** Go's [error], a [(T, error)] return value, and the three ways a
    call that touches the world can end *)

Inductive error : Type := errorString (s : string).

Inductive result (A : Type) : Type :=
| Value (a : A)
| Err (err : error).
Arguments Value {A} a.
Arguments Err {A} err.

Inductive outcome (A : Type) : Type :=
| Ok (a : A)
| Fail (err : error)
| Panic (msg : string).
Arguments Ok {A} a.
Arguments Fail {A} err.
Arguments Panic {A} msg.

(** ** Package [time] *)

Module time.

Definition Duration := Z.
Definition minDuration : Duration := - 2 ^ 63.
Definition maxDuration : Duration := 2 ^ 63 - 1.
Definition Nanosecond : Duration := 1.
Definition Second : Duration := 1000000000 * Nanosecond.
Definition Minute : Duration := 60 * Second.

Inductive Location : Type := Local | Zone (name : string).

(** An instant is a number of nanoseconds counted from the zero [Time]
    (January 1, year 1, 00:00:00 UTC); the location only affects how the
    instant is displayed and how a schedule reads its calendar fields. *)
Record Time : Type := mkTime { instant : Z; loc : Location }.

Definition zero : Time := mkTime 0 (Zone "UTC").

Definition After (t u : Time) : bool := instant u <? instant t.

(** [t.Sub(u)]: the difference, clamped to the range of an int64. *)
Definition Sub (t u : Time) : Duration :=
  let d := instant t - instant u in
  if d <? minDuration then minDuration
  else if maxDuration <? d then maxDuration
  else d.

Definition In (t : Time) (l : Location) : Time := mkTime (instant t) l.

End time.

(** ** Package [cron]: a schedule is anything with a [Next] method; a
    parser is configured by the set of fields it expects *)

Module cron.
Record Schedule : Type := mkSchedule { Next : time.Time -> time.Time }.

Inductive ParseOption : Type :=
| Second | SecondOptional | Minute | Hour | Dom | Month | Dow | DowOptional
| Descriptor.

(** [cron.NewParser(a | b | ...)] *)
Definition Parser := list ParseOption.
Definition NewParser (options : list ParseOption) : Parser := options.
End cron.

(** ** Labels and selectors *)

Definition Labels := list (string * string).

Module labels.
Definition Selector := Labels -> bool.
End labels.

Record LabelSelectorRequirement : Type := mkRequirement {
  Key : string;
  Operator : string;
  Values : list string
}.

Record LabelSelector : Type := mkLabelSelector {
  MatchLabels : Labels;
  MatchExpressions : list LabelSelectorRequirement
}.

(** ** The API types of [api/v1] and the pods *)

Record NamespacedName : Type := mkNamespacedName {
  Namespace : string;
  Name : string
}.

Definition sameName (a b : NamespacedName) : bool :=
  String.eqb (Namespace a) (Namespace b) && String.eqb (Name a) (Name b).

Record AutoRestartPodSpec : Type := mkSpec {
  Schedule : string;
  Selector : LabelSelector;
  TimeZone : string
}.

Record AutoRestartPodStatus : Type := mkStatus {
  LastRestartTime : option time.Time
}.

Record AutoRestartPod : Type := mkAutoRestartPod {
  ObjectMeta : NamespacedName;
  Spec : AutoRestartPodSpec;
  Status : AutoRestartPodStatus
}.

Record Pod : Type := mkPod {
  PodMeta : NamespacedName;
  PodLabels : Labels
}.

(** [ctrl.Request] and [ctrl.Result] *)
Record Request : Type := mkRequest { Req : NamespacedName }.
Record Result : Type := mkResult { RequeueAfter : time.Duration }.

(** ** The world a reconciliation runs in *)

Record Cluster : Type := mkCluster {
  object : option AutoRestartPod;
  pods : list Pod
}.

Inductive Call : Type :=
| CallGet (key : NamespacedName)
| CallList (ns : string) (sel : option labels.Selector)
| CallDelete (pod : Pod)
| CallStatusUpdate (obj : AutoRestartPod).

Inductive LogEntry : Type :=
| LogError (err : error) (msg : string)
| LogInfo (msg : string).

Record World : Type := mkWorld {
  cluster : Cluster;
  ticks : nat;               (* how many times the clock has been read *)
  calls : list Call;         (* client calls, oldest first *)
  logs : list LogEntry       (* log lines, oldest first *)
}.

(** What the collaborators answer during one invocation.  [Parse p s] is
    [p.Parse(s)] for a parser [p] of package [cron]; [wall n] is the
    wall-clock reading of the [n]-th call of [time.Now]; [nilSelector] is
    the selector a client that accepts a nil selector lists with (a client
    that does not accept one crashes in the call instead, which no field
    describes: what is proved about a listing passed a nil selector holds
    for the former kind only); the four [*Fault] fields say which client
    calls fail, and with which error. *)
Record Env : Type := mkEnv {
  Parse : cron.Parser -> string -> result cron.Schedule;
  LoadLocation : string -> result time.Location;
  LabelSelectorAsSelector : LabelSelector -> result labels.Selector;
  nilSelector : labels.Selector;
  wall : nat -> Z;
  getFault : option error;
  listFault : option error;
  deleteFault : Pod -> option error;
  updateFault : option error
}.

(** ** A state-and-error monad over [World] *)

Definition M (A : Type) : Type := World -> outcome A * World.

Definition ret {A} (a : A) : M A := fun w => (Ok a, w).
Definition fail {A} (err : error) : M A := fun w => (Fail err, w).
Definition panic {A} (msg : string) : M A := fun w => (Panic msg, w).

Definition bind {A B} (m : M A) (k : A -> M B) : M B :=
  fun w =>
    match m w with
    | (Ok a, w') => k a w'
    | (Fail err, w') => (Fail err, w')
    | (Panic msg, w') => (Panic msg, w')
    end.

(** [attempt m] runs [m] and hands its error to the caller as a value, the
    way [if err := f(); err != nil { ... } else { ... }] does. *)
Definition attempt {A} (m : M A) : M (A + error) :=
  fun w =>
    match m w with
    | (Ok a, w') => (Ok (inl a), w')
    | (Fail err, w') => (Ok (inr err), w')
    | (Panic msg, w') => (Panic msg, w')
    end.

Declare Scope go_scope.
Delimit Scope go_scope with go.
Notation "x <- m ;; k" := (bind m (fun x => k))
  (at level 100, m at next level, right associativity) : go_scope.
Notation "m ;; k" := (bind m (fun _ => k))
  (at level 100, right associativity) : go_scope.
Local Open Scope go_scope.

Definition record (c : Call) : M unit :=
  fun w => (Ok tt, mkWorld (cluster w) (ticks w) (calls w ++ [c]) (logs w)).

Definition logError (err : error) (msg : string) : M unit :=
  fun w => (Ok tt, mkWorld (cluster w) (ticks w) (calls w) (logs w ++ [LogError err msg])).

Definition logInfo (msg : string) : M unit :=
  fun w => (Ok tt, mkWorld (cluster w) (ticks w) (calls w) (logs w ++ [LogInfo msg])).

Definition getCluster : M Cluster := fun w => (Ok (cluster w), w).

Definition putCluster (c : Cluster) : M unit :=
  fun w => (Ok tt, mkWorld c (ticks w) (calls w) (logs w)).

(** ** The clock *)

Definition Now (env : Env) : M time.Time :=
  fun w => (Ok (time.mkTime (wall env (ticks w)) time.Local),
            mkWorld (cluster w) (S (ticks w)) (calls w) (logs w)).

(** [time.Until(t)] is [t.Sub(time.Now())]. *)
Definition Until (env : Env) (t : time.Time) : M time.Duration :=
  n <- Now env ;; ret (time.Sub t n).

(** ** The client *)

Definition Get (env : Env) (key : NamespacedName) : M AutoRestartPod :=
  record (CallGet key) ;;
  match getFault env with
  | Some err => fail err
  | None =>
      c <- getCluster ;;
      match object c with
      | Some o => if sameName (ObjectMeta o) key then ret o
                  else fail (errorString "not found")
      | None => fail (errorString "not found")
      end
  end.

Definition selects (env : Env) (sel : option labels.Selector) : labels.Selector :=
  match sel with
  | Some s => s
  | None => nilSelector env
  end.

Definition List (env : Env) (ns : string) (sel : option labels.Selector) : M (list Pod) :=
  record (CallList ns sel) ;;
  match listFault env with
  | Some err => fail err
  | None =>
      c <- getCluster ;;
      ret (filter (fun p => String.eqb (Namespace (PodMeta p)) ns
                            && selects env sel (PodLabels p)) (pods c))
  end.

Definition Delete (env : Env) (pod : Pod) : M unit :=
  record (CallDelete pod) ;;
  match deleteFault env pod with
  | Some err => fail err
  | None =>
      c <- getCluster ;;
      putCluster (mkCluster (object c)
        (filter (fun p => negb (sameName (PodMeta p) (PodMeta pod))) (pods c)))
  end.

(** [r.Status().Update(ctx, obj)]: only the status of the stored object is
    replaced. *)
Definition StatusUpdate (env : Env) (obj : AutoRestartPod) : M unit :=
  record (CallStatusUpdate obj) ;;
  match updateFault env with
  | Some err => fail err
  | None =>
      c <- getCluster ;;
      match object c with
      | Some o =>
          if sameName (ObjectMeta o) (ObjectMeta obj)
          then putCluster (mkCluster
                 (Some (mkAutoRestartPod (ObjectMeta o) (Spec o) (Status obj)))
                 (pods c))
          else fail (errorString "not found")
      | None => fail (errorString "not found")
      end
  end.

(** [for _, x := range xs { body }] *)
Fixpoint forEach {A} (xs : list A) (body : A -> M unit) : M unit :=
  match xs with
  | [] => ret tt
  | x :: rest => body x ;; forEach rest body
  end.

(** [selector, _ := f(...)]: the error is dropped and, when there is one,
    [selector] is the nil interface. *)
Definition dropError {A} (r : result A) : option A :=
  match r with
  | Value a => Some a
  | Err _ => None
  end.

Definition setLastRestartTime (obj : AutoRestartPod) (now : time.Time) : AutoRestartPod :=
  mkAutoRestartPod (ObjectMeta obj) (Spec obj) (mkStatus (Some now)).

(** ** [parseCronSchedule] (the same text in both source files) *)

Definition parseCronSchedule (env : Env) (schedule : string) : result cron.Schedule :=
  let standardParser :=
    cron.NewParser [cron.Minute; cron.Hour; cron.Dom; cron.Month; cron.Dow;
                    cron.Descriptor] in
  match Parse env standardParser schedule with
  | Value sch => Value sch
  | Err _ =>
      let parser :=
        cron.NewParser [cron.Second; cron.Minute; cron.Hour; cron.Dom; cron.Month;
                        cron.Dow; cron.Descriptor] in
      Parse env parser schedule
  end.

(** The two attempts of [parseCronSchedule], by name: the five-field
    grammar (minute, hour, day of month, month, day of week, descriptors)
    and the six-field grammar with a leading seconds field. *)
Definition standardParse (env : Env) (schedule : string) : result cron.Schedule :=
  Parse env [cron.Minute; cron.Hour; cron.Dom; cron.Month; cron.Dow; cron.Descriptor]
        schedule.

Definition secondsParse (env : Env) (schedule : string) : result cron.Schedule :=
  Parse env [cron.Second; cron.Minute; cron.Hour; cron.Dom; cron.Month; cron.Dow;
             cron.Descriptor] schedule.

(** What [Reconcile] hands back to the control loop. *)
Inductive Returned : Type :=
| Return (res : Result) (err : option error)
| Panicked (msg : string).

(** [return ctrl.Result{}, err] on an error, [return res, nil] otherwise. *)
Definition conclude (m : M Result) : World -> Returned * World :=
  fun w =>
    match m w with
    | (Ok res, w') => (Return res None, w')
    | (Fail err, w') => (Return (mkResult 0) (Some err), w')
    | (Panic msg, w') => (Panicked msg, w')
    end.

(** ** The opening of [Reconcile], the same text in both source files:
    fetch the object, parse its schedule, read the clock in the requested
    time zone. *)

Definition resolveSchedule (env : Env) (obj : AutoRestartPod) : M cron.Schedule :=
  match parseCronSchedule env (Schedule (Spec obj)) with
  | Value sch => ret sch
  | Err err => logError err "Failed to parse cron schedule" ;; fail err
  end.

Definition currentTime (env : Env) (obj : AutoRestartPod) : M time.Time :=
  if String.eqb (TimeZone (Spec obj)) "" then Now env
  else
    match LoadLocation env (TimeZone (Spec obj)) with
    | Value l => t <- Now env ;; ret (time.In t l)
    | Err err => logError err "Failed to parse timezone" ;; fail err
    end.

Definition prelude (env : Env) (req : Request)
  : M (AutoRestartPod * cron.Schedule * time.Time) :=
  obj <- Get env (Req req) ;;
  schedule <- resolveSchedule env obj ;;
  now <- currentTime env obj ;;
  ret (obj, schedule, now).

(** The body of the loop over [podList.Items]; the two files differ only in
    the text of the success message. *)
Definition deletePod (env : Env) (okMsg : string) (pod : Pod) : M unit :=
  r <- attempt (Delete env pod) ;;
  match r with
  | inr err => logError err "Failed to delete pod"
  | inl _ => logInfo okMsg
  end.

(** ** [internal/controller/autorestartpod_controller.go] *)

Module Controller.

(** Lines 78 to 103: everything after the clock has been read. *)
Definition act (env : Env) (req : Request)
    (obj : AutoRestartPod) (schedule : cron.Schedule) (now : time.Time) : M Result :=
  let nextRun := cron.Next schedule now in
  if time.After nextRun now then
    ret (mkResult (time.Sub nextRun now))
  else
    let selector := dropError (LabelSelectorAsSelector env (Selector (Spec obj))) in
    podList <- List env (Namespace (Req req)) selector ;;
    forEach podList (deletePod env "Restart pod") ;;
    let obj := setLastRestartTime obj now in
    StatusUpdate env obj ;;
    d <- Until env nextRun ;;
    ret (mkResult d).

Definition Reconcile (env : Env) (req : Request) : World -> Returned * World :=
  conclude (
    x <- prelude env req ;;
    let '(obj, schedule, now) := x in
    act env req obj schedule now).

End Controller.

(** ** The unnamed source file [part_000] *)

Module Part000.

Definition needsRestart (nextRun now : time.Time) : bool :=
  negb (time.After nextRun now) || (time.Sub nextRun now <? time.Minute).

(** [selector.String()] inside the call of [log.Error] that reports a
    failed listing: on the nil interface it is a nil dereference. *)
Definition selectorString (sel : option labels.Selector) : M string :=
  match sel with
  | Some _ => ret "selector"
  | None => panic "invalid memory address or nil pointer dereference"
  end.

(** Lines 102 to 130: the branch taken when a restart is needed. *)
Definition restart (env : Env) (req : Request)
    (obj : AutoRestartPod) (schedule : cron.Schedule) (now : time.Time) : M time.Time :=
  let obj := setLastRestartTime obj now in
  r <- attempt (StatusUpdate env obj) ;;
  match r with
  | inr err => logError err "Failed to update AutoRestartPod status" ;; fail err
  | inl _ => ret tt
  end ;;
  let selector := dropError (LabelSelectorAsSelector env (Selector (Spec obj))) in
  l <- attempt (List env (Namespace (Req req)) selector) ;;
  podList <- match l with
             | inr err =>
                 _ <- selectorString selector ;;
                 logError err "Failed to list pods" ;; fail err
             | inl ps => ret ps
             end ;;
  forEach podList (deletePod env "Restarted pod") ;;
  ret (cron.Next schedule now).

(** Lines 131 to 142: the branch taken otherwise. *)
Definition initialize (env : Env) (obj : AutoRestartPod) (now : time.Time) : M unit :=
  match LastRestartTime (Status obj) with
  | None =>
      let obj := setLastRestartTime obj now in
      r <- attempt (StatusUpdate env obj) ;;
      match r with
      | inr err => logError err "Failed to initialize LastRestartTime status" ;; fail err
      | inl _ => ret tt
      end
  | Some _ => ret tt
  end.

(** Lines 88 to 147: everything after the clock has been read. *)
Definition act (env : Env) (req : Request)
    (obj : AutoRestartPod) (schedule : cron.Schedule) (now : time.Time) : M Result :=
  let nextRun := cron.Next schedule now in
  let needsRestart := needsRestart nextRun now in
  logInfo "Time calculations" ;;
  nextRun <- (if needsRestart
              then restart env req obj schedule now
              else initialize env obj now ;; ret nextRun) ;;
  ret (mkResult (time.Sub nextRun now)).

Definition Reconcile (env : Env) (req : Request) : World -> Returned * World :=
  conclude (
    x <- prelude env req ;;
    let '(obj, schedule, now) := x in
    act env req obj schedule now).

End Part000.

(** ** Observations on a world *)

Definition storedLastRestartTime (c : Cluster) : option time.Time :=
  match object c with
  | Some o => LastRestartTime (Status o)
  | None => None
  end.

(** [notBefore a b]: the recorded time [b] is not earlier than [a]; an
    unset field counts as earlier than everything. *)
Definition notBefore (a b : option time.Time) : Prop :=
  match a, b with
  | None, _ => True
  | Some _, None => False
  | Some t, Some u => time.instant t <= time.instant u
  end.

Definition isDelete (c : Call) : bool :=
  match c with
  | CallDelete _ => true
  | _ => false
  end.

Definition isStatusUpdate (c : Call) : bool :=
  match c with
  | CallStatusUpdate _ => true
  | _ => false
  end.

Definition isList (c : Call) : bool :=
  match c with
  | CallList _ _ => true
  | _ => false
  end.

(** The pods a listing with selector [sel] in namespace [ns] returns. *)
Definition listed (env : Env) (ns : string) (sel : option labels.Selector)
    (c : Cluster) : list Pod :=
  filter (fun p => String.eqb (Namespace (PodMeta p)) ns
                   && selects env sel (PodLabels p)) (pods c).

(** What the loop over the listed pods leaves behind. *)
Definition deleted (env : Env) (pod : Pod) : bool :=
  match deleteFault env pod with
  | None => true
  | Some _ => false
  end.

Definition survives (env : Env) (ps : list Pod) (p : Pod) : bool :=
  negb (existsb (fun q => deleted env q && sameName (PodMeta p) (PodMeta q)) ps).

Definition deleteLog (env : Env) (okMsg : string) (pod : Pod) : LogEntry :=
  match deleteFault env pod with
  | Some err => LogError err "Failed to delete pod"
  | None => LogInfo okMsg
  end.

Definition afterDeletes (env : Env) (okMsg : string) (ps : list Pod) (w : World) : World :=
  mkWorld (mkCluster (object (cluster w)) (filter (survives env ps) (pods (cluster w))))
          (ticks w)
          (calls w ++ map CallDelete ps)
          (logs w ++ map (deleteLog env okMsg) ps).

(** ** The life of one object

    Between two reconciliations the rest of the system may do anything to
    the cluster (recreate pods, edit the spec) except touch
    [status.lastRestartTime], which only the reconciler writes; the clock
    may be read by others.  [reconcile] is either of the two functions. *)

Section Life.

Variable clock : nat -> Z.
Variable reconcile : Env -> Request -> World -> Returned * World.

Inductive step : World -> World -> Prop :=
| step_reconcile env req w :
    wall env = clock ->
    step w (snd (reconcile env req w))
| step_outside w c n :
    storedLastRestartTime c = storedLastRestartTime (cluster w) ->
    (ticks w <= n)%nat ->
    step w (mkWorld c n (calls w) (logs w)).

Inductive steps : World -> World -> Prop :=
| steps_refl w : steps w w
| steps_next w1 w2 w3 : step w1 w2 -> steps w2 w3 -> steps w1 w3.

End Life.

(** The recorded time is not ahead of the next clock reading. *)
Definition recordedInPast (clock : nat -> Z) (w : World) : Prop :=
  match storedLastRestartTime (cluster w) with
  | Some t => time.instant t <= clock (ticks w)
  | None => True
  end.

Definition monotoneClock (clock : nat -> Z) : Prop :=
  forall i j, (i <= j)%nat -> clock i <= clock j.

(** What one run does to the stored time and to the clock: the clock is
    not turned back, and the stored time is either left alone or replaced
    by a time whose instant is the clock reading taken at the start of the
    run. *)
Definition writesNow (env : Env) (w w' : World) : Prop :=
  (ticks w <= ticks w')%nat
  /\ (storedLastRestartTime (cluster w') = storedLastRestartTime (cluster w)
      \/ (exists t, storedLastRestartTime (cluster w') = Some t
                    /\ time.instant t = wall env (ticks w))).

(** ** Sample collaborators used in the worked examples *)

Module Sample.

Definition fiveMinutes : Z := 5 * time.Minute.

(** Fires at every instant that is a multiple of five minutes. *)
Definition everyFiveMinutes : cron.Schedule :=
  cron.mkSchedule (fun t =>
    time.mkTime ((time.instant t / fiveMinutes + 1) * fiveMinutes) (time.loc t)).

(** A schedule with no activation at all (February 30th): [Next] gives
    the zero time. *)
Definition unsatisfiable : cron.Schedule :=
  cron.mkSchedule (fun _ => time.zero).

Definition standardParse (s : string) : result cron.Schedule :=
  if String.eqb s "*/5 * * * *" then Value everyFiveMinutes
  else if String.eqb s "0 0 30 2 *" then Value unsatisfiable
  else Err (errorString "expected exactly 5 fields").

Definition secondsParse (s : string) : result cron.Schedule :=
  if String.eqb s "0 */5 * * * *" then Value everyFiveMinutes
  else Err (errorString "expected exactly 6 fields").

Definition LoadLocation (name : string) : result time.Location :=
  if String.eqb name "Asia/Shanghai" then Value (time.Zone name)
  else if String.eqb name "UTC" then Value (time.Zone name)
  else Err (errorString "unknown time zone").

Fixpoint lookup (k : string) (l : Labels) : option string :=
  match l with
  | [] => None
  | (k', v) :: rest => if String.eqb k k' then Some v else lookup k rest
  end.

Definition hasLabel (l : Labels) (kv : string * string) : bool :=
  match lookup (fst kv) l with
  | Some v => String.eqb v (snd kv)
  | None => false
  end.

Definition knownOperator (op : string) : bool :=
  String.eqb op "In" || String.eqb op "NotIn"
  || String.eqb op "Exists" || String.eqb op "DoesNotExist".

Definition holds (l : Labels) (r : LabelSelectorRequirement) : bool :=
  match lookup (Key r) l with
  | Some v =>
      if String.eqb (Operator r) "In" then existsb (String.eqb v) (Values r)
      else if String.eqb (Operator r) "NotIn" then negb (existsb (String.eqb v) (Values r))
      else String.eqb (Operator r) "Exists"
  | None =>
      String.eqb (Operator r) "NotIn" || String.eqb (Operator r) "DoesNotExist"
  end.

(** Match-labels are an equality conjunction; an expression whose
    operator is not one of the four set operators is rejected. *)
Definition LabelSelectorAsSelector (ps : LabelSelector) : result labels.Selector :=
  if forallb (fun r => knownOperator (Operator r)) (MatchExpressions ps)
  then Value (fun l => forallb (hasLabel l) (MatchLabels ps)
                       && forallb (holds l) (MatchExpressions ps))
  else Err (errorString "not a valid label selector operator").

(** What a client that accepts a nil selector and reads it as "nothing"
    lists with. *)
Definition nothing : labels.Selector := fun _ => false.

Definition noFault : Pod -> option error := fun _ => None.

(** 2025-05-26 12:00:00 UTC, in nanoseconds since the zero time. *)
Definition noon : Z := 63883857600 * time.Second.

Definition hasSeconds (p : cron.Parser) : bool :=
  existsb (fun o => match o with cron.Second => true | _ => false end) p.

(** A parser with a seconds field reads six fields, one without reads
    five. *)
Definition Parse (p : cron.Parser) (s : string) : result cron.Schedule :=
  if hasSeconds p then secondsParse s else standardParse s.

Definition env (clock : nat -> Z) (listFault : option error)
    (deleteFault : Pod -> option error) (updateFault : option error) : Env :=
  mkEnv Parse LoadLocation LabelSelectorAsSelector nothing
        clock None listFault deleteFault updateFault.

Definition key : NamespacedName := mkNamespacedName "default" "test-resource".
Definition request : Request := mkRequest key.

Definition nginx : LabelSelector := mkLabelSelector [("app", "nginx")] [].
Definition malformed : LabelSelector :=
  mkLabelSelector [] [mkRequirement "app" "Equals" ["nginx"]].

Definition resource (schedule : string) (sel : LabelSelector)
    (last : option time.Time) : AutoRestartPod :=
  mkAutoRestartPod key (mkSpec schedule sel "Asia/Shanghai") (mkStatus last).

Definition pod (name : string) : Pod :=
  mkPod (mkNamespacedName "default" name) [("app", "nginx")].

Definition other : Pod :=
  mkPod (mkNamespacedName "default" "redis-0") [("app", "redis")].

Definition world (o : AutoRestartPod) (ps : list Pod) : World :=
  mkWorld (mkCluster (Some o) ps) 0 [] [].

(** A clock that reads [t] and then advances by one second per reading. *)
Definition clockFrom (t : Z) : nat -> Z := fun n => t + Z.of_nat n * time.Second.

End Sample.

(** ** Worked scenarios: one object, its pods, and the collaborators *)

Module Scenario.
Import Sample.

Definition nginxPods : list Pod := [pod "nginx-0"; pod "nginx-1"; pod "nginx-2"].

(** A freshly created object (no status yet) among three matching pods
    and one pod of another application. *)
Definition fresh (schedule : string) (sel : LabelSelector) : World :=
  world (resource schedule sel None) (nginxPods ++ [other]).

Definition halfMinuteEarly : Z := noon - 30 * time.Second.

(** Thirty seconds before a five-minute boundary, nothing fails. *)
Definition soon : Env := env (clockFrom halfMinuteEarly) None noFault None.

(** Exactly on a five-minute boundary, nothing fails. *)
Definition atNoon : Env := env (clockFrom noon) None noFault None.

(** Thirty seconds early, and the listing fails. *)
Definition listFails : Env :=
  env (clockFrom halfMinuteEarly) (Some (errorString "list failed")) noFault None.

(** Thirty seconds early, and deleting [nginx-1] fails. *)
Definition oneDeleteFails : Pod -> option error :=
  fun p => if String.eqb (Name (PodMeta p)) "nginx-1"
           then Some (errorString "delete failed") else None.

Definition flaky : Env := env (clockFrom halfMinuteEarly) None oneDeleteFails None.

(** On the boundary, deleting [nginx-1] fails, under a schedule that has
    no activation. *)
Definition flakyAtNoon : Env := env (clockFrom noon) None oneDeleteFails None.

Definition stamp (t : Z) : time.Time := time.mkTime t (time.Zone "Asia/Shanghai").

(** What the workload controller does after a restart: the matching pods
    are back.  The object, with its status, and the clock are left as
    they are; the call and log histories start afresh. *)
Definition recreated (w : World) : World :=
  mkWorld (mkCluster (object (cluster w)) (nginxPods ++ [other])) (ticks w) [] [].

(** The parsers of the sample collaborators reject this expression. *)
Definition notACron : string := "not-a-cron".

End Scenario.

(** A restart by [part_000] thirty seconds before the activation, the pods
    coming back, and a second run against the status the first one stored;
    the clock has been read once, so the second run reads one second
    later. *)
Module Retry.
Definition start : World := Scenario.fresh "*/5 * * * *" Sample.nginx.
Definition first : Returned * World :=
  Part000.Reconcile Scenario.soon Sample.request start.
Definition between : World := Scenario.recreated (snd first).
Definition now : time.Time := Scenario.stamp (Scenario.halfMinuteEarly + time.Second).
Definition retry : Returned * World :=
  Part000.Reconcile Scenario.soon Sample.request between.
End Retry.

(** A stretch of the life of an object whose last restart was recorded
    five minutes before the clock starts: a run, the pods coming back while
    others read the clock twice, and a second run. *)
Module Stretch.
Definition clock : nat -> Z := Sample.clockFrom Scenario.halfMinuteEarly.
Definition earlier : time.Time :=
  Scenario.stamp (Scenario.halfMinuteEarly - Sample.fiveMinutes).
Definition start : World :=
  Sample.world (Sample.resource "*/5 * * * *" Sample.nginx (Some earlier))
               (Scenario.nginxPods ++ [Sample.other]).
Definition podsBack (w : World) : World :=
  mkWorld (mkCluster (object (cluster w)) (Scenario.nginxPods ++ [Sample.other]))
          (ticks w + 2) (calls w) (logs w).
Definition finish (reconcile : Env -> Request -> World -> Returned * World) : World :=
  snd (reconcile Scenario.soon Sample.request
         (podsBack (snd (reconcile Scenario.soon Sample.request start)))).
End Stretch.

(** ** What a restart that tolerates deletion failures looks like

    [r] is a run started in world [w] in which [ps] were the matched pods:
    it returned without error, every matched pod was the target of one
    delete call, in order, the stored status carries [now], the pods whose
    deletion did not fail are gone, and each failure was logged. *)
Definition restartedDespiteFailures (env : Env) (now : time.Time) (ps : list Pod)
    (w : World) (r : Returned * World) : Prop :=
  (exists res, fst r = Return res None)
  /\ filter isDelete (calls (snd r)) = filter isDelete (calls w) ++ map CallDelete ps
  /\ storedLastRestartTime (cluster (snd r)) = Some now
  /\ (forall p, In p ps -> deleteFault env p = None ->
        forall q, In q (pods (cluster (snd r))) ->
                  sameName (PodMeta q) (PodMeta p) = false)
  /\ (forall p err, In p ps -> deleteFault env p = Some err ->
        In (LogError err "Failed to delete pod") (logs (snd r))).

(** ** What a run may touch

    The selector a run works with is the one of the stored object, or the
    nil selector when its resolution fails. *)
Definition objectSelector (env : Env) (c : Cluster) : option labels.Selector :=
  match object c with
  | Some o => dropError (LabelSelectorAsSelector env (Selector (Spec o)))
  | None => None
  end.

(** The stored object is the same up to its status. *)
Definition sameSpec (a b : option AutoRestartPod) : Prop :=
  match a, b with
  | Some o, Some o' => ObjectMeta o' = ObjectMeta o /\ Spec o' = Spec o
  | None, None => True
  | _, _ => False
  end.

(** Between [w] and [w'] the delete calls issued were those for [ps], in
    order, the pods left are the earlier pods without the ones of [ps]
    whose deletion went through, and the object kept its name and spec. *)
Definition deletesOnly (env : Env) (ps : list Pod) (w w' : World) : Prop :=
  pods (cluster w') = filter (survives env ps) (pods (cluster w))
  /\ filter isDelete (calls w') = filter isDelete (calls w) ++ map CallDelete ps
  /\ sameSpec (object (cluster w)) (object (cluster w')).


(** The calls a run added to the history. *)
Definition addedCalls (w w' : World) (extra : list Call) : Prop :=
  calls w' = calls w ++ extra.

(** ** More scenarios *)

Module Edge.

(** Fetching the object fails. *)
Definition getFails : Env :=
  mkEnv Sample.Parse Sample.LoadLocation Sample.LabelSelectorAsSelector Sample.nothing
        (Sample.clockFrom Scenario.halfMinuteEarly)
        (Some (errorString "get failed")) None Sample.noFault None.

(** Thirty seconds early, and the status write fails. *)
Definition updateFails : Env :=
  Sample.env (Sample.clockFrom Scenario.halfMinuteEarly) None Sample.noFault
             (Some (errorString "conflict")).

(** On the boundary, and the status write fails. *)
Definition updateFailsAtNoon : Env :=
  Sample.env (Sample.clockFrom Sample.noon) None Sample.noFault
             (Some (errorString "conflict")).

(** An object whose time zone does not exist. *)
Definition badZone : AutoRestartPod :=
  mkAutoRestartPod Sample.key (mkSpec "*/5 * * * *" Sample.nginx "Mars/Olympus")
                   (mkStatus None).

(** An object without a time zone. *)
Definition noZone : AutoRestartPod :=
  mkAutoRestartPod Sample.key (mkSpec "*/5 * * * *" Sample.nginx "") (mkStatus None).

(** A pod with the labels of the application, in another namespace. *)
Definition elsewhere : Pod :=
  mkPod (mkNamespacedName "staging" "nginx-0") [("app", "nginx")].

(** A selector that matches no pod of the cluster. *)
Definition nobody : LabelSelector := mkLabelSelector [("app", "absent")] [].

(** On the boundary, under a schedule without activation, the status write
    fails. *)
Definition lateConflict : World := Scenario.fresh "0 0 30 2 *" Sample.nginx.

(** Thirty seconds early, the listing fails and the selector is
    malformed. *)
Definition brokenSelector : World := Scenario.fresh "*/5 * * * *" Sample.malformed.

(** On the boundary, and the listing fails. *)
Definition listFailsAtNoon : Env :=
  Sample.env (Sample.clockFrom Sample.noon) (Some (errorString "list failed"))
             Sample.noFault None.

(** Thirty seconds early, with whatever the listing answers. *)
Definition soonListing (listFault : option error) : Env :=
  Sample.env (Sample.clockFrom Scenario.halfMinuteEarly) listFault Sample.noFault None.

(** On the boundary, with whatever the listing answers. *)
Definition atNoonListing (listFault : option error) : Env :=
  Sample.env (Sample.clockFrom Sample.noon) listFault Sample.noFault None.

(** Exactly one minute before the activation, and one nanosecond later. *)
Definition minuteEarly : Env :=
  Sample.env (Sample.clockFrom (Sample.noon - time.Minute)) None Sample.noFault None.

Definition justInside : Env :=
  Sample.env (Sample.clockFrom (Sample.noon - time.Minute + time.Nanosecond))
             None Sample.noFault None.

(** The world a first run of [part_000] on the boundary leaves behind. *)
Definition afterFirstRun : World :=
  snd (Part000.Reconcile Scenario.atNoon Sample.request
         (Scenario.fresh "*/5 * * * *" Sample.nginx)).

(** An object that already carries a restart time. *)
Definition seen : World :=
  Sample.world (Sample.resource "*/5 * * * *" Sample.nginx
                  (Some (Scenario.stamp (Sample.noon - Sample.fiveMinutes))))
               (Scenario.nginxPods ++ [Sample.other]).

End Edge.

(** ** The worlds the primitive operations lead to *)

Definition withCall (c : Call) (w : World) : World :=
  mkWorld (cluster w) (ticks w) (calls w ++ [c]) (logs w).

Definition withLog (l : LogEntry) (w : World) : World :=
  mkWorld (cluster w) (ticks w) (calls w) (logs w ++ [l]).

Definition withTick (w : World) : World :=
  mkWorld (cluster w) (S (ticks w)) (calls w) (logs w).

Definition withStatus (o : AutoRestartPod) (st : AutoRestartPodStatus) (w : World) : World :=
  mkWorld (mkCluster (Some (mkAutoRestartPod (ObjectMeta o) (Spec o) st)) (pods (cluster w)))
          (ticks w) (calls w) (logs w).

Definition notFound : error := errorString "not found".

(** * Lemmas on the primitives *)

Lemma bind_run {A B} (m : M A) (k : A -> M B) (w : World) :
  bind m k w =
  match m w with
  | (Ok a, w') => k a w'
  | (Fail err, w') => (Fail err, w')
  | (Panic msg, w') => (Panic msg, w')
  end.
Proof. reflexivity. Qed.

Lemma List_run env ns sel w :
  List env ns sel w =
  (match listFault env with
   | Some err => Fail err
   | None => Ok (listed env ns sel (cluster w))
   end, withCall (CallList ns sel) w).
Proof.
  unfold List, bind, record, getCluster, fail, ret, withCall, listed.
  destruct (listFault env); reflexivity.
Qed.

Lemma StatusUpdate_run env obj w :
  StatusUpdate env obj w =
  match updateFault env with
  | Some err => (Fail err, withCall (CallStatusUpdate obj) w)
  | None =>
      match object (cluster w) with
      | Some o =>
          if sameName (ObjectMeta o) (ObjectMeta obj)
          then (Ok tt, withStatus o (Status obj) (withCall (CallStatusUpdate obj) w))
          else (Fail notFound, withCall (CallStatusUpdate obj) w)
      | None => (Fail notFound, withCall (CallStatusUpdate obj) w)
      end
  end.
Proof.
  unfold StatusUpdate, bind, record, getCluster, putCluster, fail, withCall, withStatus.
  destruct (updateFault env); [reflexivity|]. simpl.
  destruct (object (cluster w)) as [o|]; [|reflexivity].
  destruct (sameName (ObjectMeta o) (ObjectMeta obj)); reflexivity.
Qed.

Lemma sameName_refl a : sameName a a = true.
Proof. unfold sameName. now rewrite !String.eqb_refl. Qed.

Lemma sameName_trans a b c :
  sameName a b = true -> sameName b c = true -> sameName a c = true.
Proof.
  unfold sameName. rewrite !andb_true_iff, !String.eqb_eq.
  intros [-> ->] [-> ->]. auto.
Qed.

Lemma sameName_sym a b : sameName a b = sameName b a.
Proof. unfold sameName. now rewrite (String.eqb_sym (Namespace a)), (String.eqb_sym (Name a)). Qed.

Lemma filter_all {A} (f : A -> bool) (l : list A) :
  (forall x, f x = true) -> filter f l = l.
Proof.
  intros H. induction l as [|x l IH]; simpl; [reflexivity|].
  now rewrite H, IH.
Qed.

Lemma filter_twice {A} (f g : A -> bool) (l : list A) :
  filter f (filter g l) = filter (fun x => g x && f x) l.
Proof.
  induction l as [|x l IH]; simpl; [reflexivity|].
  destruct (g x); simpl; [destruct (f x)|]; now rewrite IH.
Qed.

Lemma deletePod_run env okMsg pod w :
  deletePod env okMsg pod w = (Ok tt, afterDeletes env okMsg [pod] w).
Proof.
  unfold deletePod, attempt, Delete, bind, record, getCluster, putCluster,
    fail, logError, logInfo, afterDeletes, deleteLog, survives, deleted.
  destruct w as [[o l] t c g]. simpl. destruct (deleteFault env pod); simpl.
  - rewrite filter_all by reflexivity. reflexivity.
  - do 3 f_equal. apply filter_ext. intros p.
    now rewrite orb_false_r.
Qed.

Lemma afterDeletes_cons env okMsg p ps w :
  afterDeletes env okMsg ps (afterDeletes env okMsg [p] w)
  = afterDeletes env okMsg (p :: ps) w.
Proof.
  unfold afterDeletes. simpl. rewrite <- !app_assoc. simpl.
  rewrite filter_twice. do 2 f_equal.
  apply filter_ext. intros x. unfold survives. simpl.
  rewrite orb_false_r, negb_orb. reflexivity.
Qed.

Lemma forEach_deletePod env okMsg ps : forall w,
  forEach ps (deletePod env okMsg) w = (Ok tt, afterDeletes env okMsg ps w).
Proof.
  induction ps as [|p ps IH]; intros w.
  - unfold afterDeletes. simpl. unfold ret. rewrite !app_nil_r.
    rewrite filter_all by reflexivity. destruct w as [[o l] t c g]. reflexivity.
  - simpl. rewrite bind_run, deletePod_run, IH, afterDeletes_cons. reflexivity.
Qed.

(** * The opening steps *)

Lemma Get_run env key w :
  Get env key w =
  (match getFault env with
   | Some err => Fail err
   | None =>
       match object (cluster w) with
       | Some o => if sameName (ObjectMeta o) key then Ok o else Fail notFound
       | None => Fail notFound
       end
   end, withCall (CallGet key) w).
Proof.
  unfold Get, bind, record, getCluster, fail, ret, withCall, notFound.
  destruct (getFault env); [reflexivity|]. simpl.
  destruct (object (cluster w)) as [o|]; [|reflexivity].
  destruct (sameName (ObjectMeta o) key); reflexivity.
Qed.

Lemma prelude_cases env req w :
  (exists obj sch now,
      prelude env req w
      = (Ok (obj, sch, now), withTick (withCall (CallGet (Req req)) w))
      /\ getFault env = None
      /\ object (cluster w) = Some obj
      /\ sameName (ObjectMeta obj) (Req req) = true
      /\ parseCronSchedule env (Schedule (Spec obj)) = Value sch
      /\ time.instant now = wall env (ticks w))
  \/ (exists err l,
      prelude env req w
      = (Fail err, mkWorld (cluster w) (ticks w) (calls w ++ [CallGet (Req req)]) l)).
Proof.
  unfold prelude. rewrite bind_run, Get_run.
  destruct (getFault env) as [e|] eqn:Hget.
  { right. exists e, (logs w). reflexivity. }
  destruct (object (cluster w)) as [o|] eqn:Hobj;
    [|right; eexists; exists (logs w); reflexivity].
  destruct (sameName (ObjectMeta o) (Req req)) eqn:Hname;
    [|right; eexists; exists (logs w); reflexivity].
  rewrite bind_run. unfold resolveSchedule.
  destruct (parseCronSchedule env (Schedule (Spec o))) as [sch|e] eqn:Hparse.
  2:{ right. exists e. eexists. reflexivity. }
  unfold ret at 1. rewrite bind_run. unfold currentTime.
  destruct (String.eqb (TimeZone (Spec o)) "").
  { left. exists o, sch, (time.mkTime (wall env (ticks w)) time.Local).
    repeat split; auto. }
  destruct (LoadLocation env (TimeZone (Spec o))) as [l|e].
  2:{ right. exists e. eexists. reflexivity. }
  left. exists o, sch, (time.In (time.mkTime (wall env (ticks w)) time.Local) l).
  repeat split; auto.
Qed.

Lemma prelude_ok env req w obj sch now w0 :
  prelude env req w = (Ok (obj, sch, now), w0) ->
  w0 = withTick (withCall (CallGet (Req req)) w)
  /\ getFault env = None
  /\ object (cluster w) = Some obj
  /\ sameName (ObjectMeta obj) (Req req) = true
  /\ parseCronSchedule env (Schedule (Spec obj)) = Value sch
  /\ time.instant now = wall env (ticks w).
Proof.
  intros H.
  destruct (prelude_cases env req w) as [(o & s & n & E & F)|(e & l & E)];
    rewrite E in H; [|discriminate].
  injection H as -> -> -> <-. auto.
Qed.

Lemma Controller_after_prelude env req w obj sch now w0 :
  prelude env req w = (Ok (obj, sch, now), w0) ->
  Controller.Reconcile env req w = conclude (Controller.act env req obj sch now) w0.
Proof.
  intros H. unfold Controller.Reconcile, conclude. now rewrite bind_run, H.
Qed.

Lemma Part000_after_prelude env req w obj sch now w0 :
  prelude env req w = (Ok (obj, sch, now), w0) ->
  Part000.Reconcile env req w = conclude (Part000.act env req obj sch now) w0.
Proof.
  intros H. unfold Part000.Reconcile, conclude. now rewrite bind_run, H.
Qed.

Lemma Controller_prelude_fails env req w err w0 :
  prelude env req w = (Fail err, w0) ->
  Controller.Reconcile env req w = (Return (mkResult 0) (Some err), w0).
Proof.
  intros H. unfold Controller.Reconcile, conclude. now rewrite bind_run, H.
Qed.

Lemma Part000_prelude_fails env req w err w0 :
  prelude env req w = (Fail err, w0) ->
  Part000.Reconcile env req w = (Return (mkResult 0) (Some err), w0).
Proof.
  intros H. unfold Part000.Reconcile, conclude. now rewrite bind_run, H.
Qed.

(** * What each file does once the clock has been read *)

Lemma Controller_act_wait env req obj sch now w0 :
  time.After (cron.Next sch now) now = true ->
  Controller.act env req obj sch now w0
  = (Ok (mkResult (time.Sub (cron.Next sch now) now)), w0).
Proof. intros H. unfold Controller.act. now rewrite H. Qed.

Lemma Controller_act_restart env req obj sch now w0 :
  time.After (cron.Next sch now) now = false ->
  Controller.act env req obj sch now w0 =
  let sel := dropError (LabelSelectorAsSelector env (Selector (Spec obj))) in
  let ns := Namespace (Req req) in
  match listFault env with
  | Some err => (Fail err, withCall (CallList ns sel) w0)
  | None =>
      let ps := listed env ns sel (cluster w0) in
      let w1 := afterDeletes env "Restart pod" ps (withCall (CallList ns sel) w0) in
      match StatusUpdate env (setLastRestartTime obj now) w1 with
      | (Ok _, w2) =>
          (Ok (mkResult (time.Sub (cron.Next sch now)
                           (time.mkTime (wall env (ticks w2)) time.Local))),
           withTick w2)
      | (Fail err, w2) => (Fail err, w2)
      | (Panic msg, w2) => (Panic msg, w2)
      end
  end.
Proof.
  intros H. unfold Controller.act. rewrite H. cbv zeta.
  rewrite bind_run, List_run.
  destruct (listFault env); [reflexivity|].
  rewrite bind_run, forEach_deletePod, bind_run.
  destruct (StatusUpdate env _ _) as [[u|e|m] w2]; reflexivity.
Qed.

Lemma Part000_restart_run env req obj sch now w :
  Part000.restart env req obj sch now w =
  let sel := dropError (LabelSelectorAsSelector env (Selector (Spec obj))) in
  let ns := Namespace (Req req) in
  match StatusUpdate env (setLastRestartTime obj now) w with
  | (Ok _, w1) =>
      match listFault env with
      | Some err =>
          match sel with
          | Some _ =>
              (Fail err, withLog (LogError err "Failed to list pods")
                           (withCall (CallList ns sel) w1))
          | None =>
              (Panic "invalid memory address or nil pointer dereference",
               withCall (CallList ns sel) w1)
          end
      | None =>
          (Ok (cron.Next sch now),
           afterDeletes env "Restarted pod" (listed env ns sel (cluster w1))
             (withCall (CallList ns sel) w1))
      end
  | (Fail err, w1) =>
      (Fail err, withLog (LogError err "Failed to update AutoRestartPod status") w1)
  | (Panic msg, w1) => (Panic msg, w1)
  end.
Proof.
  unfold Part000.restart. cbv zeta. rewrite bind_run. unfold attempt at 1.
  destruct (StatusUpdate env _ w) as [[u|e|m] w1]; try reflexivity.
  cbv iota beta. rewrite bind_run. unfold ret at 1. rewrite bind_run.
  unfold attempt at 1. simpl Spec. rewrite List_run.
  destruct (listFault env) as [e|].
  - destruct (dropError _); reflexivity.
  - cbv iota beta. rewrite bind_run. unfold ret at 1.
    rewrite bind_run, forEach_deletePod. reflexivity.
Qed.

Lemma Part000_initialize_run env obj now w :
  Part000.initialize env obj now w =
  match LastRestartTime (Status obj) with
  | Some _ => (Ok tt, w)
  | None =>
      match StatusUpdate env (setLastRestartTime obj now) w with
      | (Ok _, w1) => (Ok tt, w1)
      | (Fail err, w1) =>
          (Fail err, withLog (LogError err "Failed to initialize LastRestartTime status") w1)
      | (Panic msg, w1) => (Panic msg, w1)
      end
  end.
Proof.
  unfold Part000.initialize.
  destruct (LastRestartTime (Status obj)); [reflexivity|].
  cbv zeta. rewrite bind_run. unfold attempt.
  destruct (StatusUpdate env _ w) as [[[]|e|m] w1]; reflexivity.
Qed.

Lemma Part000_act_run env req obj sch now w0 :
  Part000.act env req obj sch now w0 =
  let w := withLog (LogInfo "Time calculations") w0 in
  if Part000.needsRestart (cron.Next sch now) now then
    match Part000.restart env req obj sch now w with
    | (Ok nextRun, w') => (Ok (mkResult (time.Sub nextRun now)), w')
    | (Fail err, w') => (Fail err, w')
    | (Panic msg, w') => (Panic msg, w')
    end
  else
    match Part000.initialize env obj now w with
    | (Ok _, w') => (Ok (mkResult (time.Sub (cron.Next sch now) now)), w')
    | (Fail err, w') => (Fail err, w')
    | (Panic msg, w') => (Panic msg, w')
    end.
Proof.
  unfold Part000.act. cbv zeta. rewrite bind_run. unfold logInfo at 1.
  fold (withLog (LogInfo "Time calculations") w0).
  rewrite bind_run.
  destruct (Part000.needsRestart _ now).
  - destruct (Part000.restart _ _ _ _ _ _) as [[t|e|m] w']; reflexivity.
  - rewrite bind_run.
    destruct (Part000.initialize _ _ _ _) as [[u|e|m] w']; reflexivity.
Qed.

(** * Facts about [time] *)

Lemma After_true_iff t u : time.After t u = true <-> time.instant u < time.instant t.
Proof. unfold time.After. apply Z.ltb_lt. Qed.

Lemma After_false_iff t u : time.After t u = false <-> time.instant t <= time.instant u.
Proof. unfold time.After. rewrite Z.ltb_ge. reflexivity. Qed.

Lemma Sub_positive t u : time.instant u < time.instant t -> 0 < time.Sub t u.
Proof.
  intros H. unfold time.Sub, time.minDuration, time.maxDuration.
  destruct (Z.ltb_spec (time.instant t - time.instant u) (- 2 ^ 63)); [lia|].
  destruct (Z.ltb_spec (2 ^ 63 - 1) (time.instant t - time.instant u)); lia.
Qed.

Lemma Sub_not_positive t u : time.instant t <= time.instant u -> time.Sub t u <= 0.
Proof.
  intros H. unfold time.Sub, time.minDuration, time.maxDuration.
  destruct (Z.ltb_spec (time.instant t - time.instant u) (- 2 ^ 63)); [lia|].
  destruct (Z.ltb_spec (2 ^ 63 - 1) (time.instant t - time.instant u)); lia.
Qed.

Lemma Sub_under_a_minute t u :
  time.Sub t u < time.Minute <-> time.instant t - time.instant u < time.Minute.
Proof.
  unfold time.Sub, time.minDuration, time.maxDuration, time.Minute,
    time.Second, time.Nanosecond.
  destruct (Z.ltb_spec (time.instant t - time.instant u) (- 2 ^ 63)); [lia|].
  destruct (Z.ltb_spec (2 ^ 63 - 1) (time.instant t - time.instant u)); lia.
Qed.

(** The decision of [part_000], read as a statement about instants. *)
Lemma needsRestart_iff nextRun now :
  Part000.needsRestart nextRun now = true <->
  ~ (time.instant now < time.instant nextRun)
  \/ time.instant nextRun - time.instant now < time.Minute.
Proof.
  unfold Part000.needsRestart.
  rewrite orb_true_iff, negb_true_iff, After_false_iff, Z.ltb_lt, Sub_under_a_minute.
  lia.
Qed.

Lemma needsRestart_false_iff nextRun now :
  Part000.needsRestart nextRun now = false <->
  time.Minute <= time.instant nextRun - time.instant now.
Proof.
  rewrite <- not_true_iff_false, needsRestart_iff.
  unfold time.Minute, time.Second, time.Nanosecond. lia.
Qed.

Lemma not_After_needsRestart nextRun now :
  time.After nextRun now = false -> Part000.needsRestart nextRun now = true.
Proof. intros H. unfold Part000.needsRestart. now rewrite H. Qed.

Lemma needsRestart_false_After nextRun now :
  Part000.needsRestart nextRun now = false -> time.After nextRun now = true.
Proof.
  intros H. destruct (time.After nextRun now) eqn:E; [reflexivity|].
  apply not_After_needsRestart in E. congruence.
Qed.

(** * Whole runs of [Reconcile], path by path *)

Lemma StatusUpdate_set env obj now w :
  updateFault env = None ->
  object (cluster w) = Some obj ->
  StatusUpdate env (setLastRestartTime obj now) w
  = (Ok tt, withStatus obj (mkStatus (Some now))
              (withCall (CallStatusUpdate (setLastRestartTime obj now)) w)).
Proof.
  intros Hu Ho. rewrite StatusUpdate_run, Hu, Ho. simpl.
  now rewrite sameName_refl.
Qed.

Lemma StatusUpdate_fault env obj w err :
  updateFault env = Some err ->
  StatusUpdate env obj w = (Fail err, withCall (CallStatusUpdate obj) w).
Proof. intros Hu. now rewrite StatusUpdate_run, Hu. Qed.

Section Paths.

Variables (env : Env) (req : Request) (w w0 : World).
Variables (obj : AutoRestartPod) (sch : cron.Schedule) (now : time.Time).
Hypothesis Hpre : prelude env req w = (Ok (obj, sch, now), w0).

Local Abbreviation nextRun := (cron.Next sch now).
Local Abbreviation ns := (Namespace (Req req)).
Local Abbreviation sel := (dropError (LabelSelectorAsSelector env (Selector (Spec obj)))).
Local Abbreviation updated := (setLastRestartTime obj now).

Lemma prelude_world : w0 = withTick (withCall (CallGet (Req req)) w).
Proof. now destruct (prelude_ok _ _ _ _ _ _ _ Hpre). Qed.

Lemma prelude_object : object (cluster w0) = Some obj.
Proof.
  destruct (prelude_ok _ _ _ _ _ _ _ Hpre) as (-> & _ & Ho & _). exact Ho.
Qed.

Lemma Controller_waits :
  time.After nextRun now = true ->
  Controller.Reconcile env req w = (Return (mkResult (time.Sub nextRun now)) None, w0).
Proof.
  intros H. rewrite (Controller_after_prelude _ _ _ _ _ _ _ Hpre).
  unfold conclude. now rewrite Controller_act_wait.
Qed.

Lemma Controller_list_fails err :
  time.After nextRun now = false ->
  listFault env = Some err ->
  Controller.Reconcile env req w
  = (Return (mkResult 0) (Some err), withCall (CallList ns sel) w0).
Proof.
  intros H Hl. rewrite (Controller_after_prelude _ _ _ _ _ _ _ Hpre).
  unfold conclude. rewrite Controller_act_restart by exact H.
  cbv zeta. now rewrite Hl.
Qed.

Lemma Controller_restarts :
  time.After nextRun now = false ->
  listFault env = None ->
  updateFault env = None ->
  Controller.Reconcile env req w
  = (Return (mkResult (time.Sub nextRun
                         (time.mkTime (wall env (ticks w0)) time.Local))) None,
     withTick (withStatus obj (mkStatus (Some now))
       (withCall (CallStatusUpdate updated)
         (afterDeletes env "Restart pod" (listed env ns sel (cluster w0))
           (withCall (CallList ns sel) w0))))).
Proof.
  intros H Hl Hu. rewrite (Controller_after_prelude _ _ _ _ _ _ _ Hpre).
  unfold conclude. rewrite Controller_act_restart by exact H.
  cbv zeta. rewrite Hl.
  rewrite StatusUpdate_set by (auto; simpl; apply prelude_object).
  reflexivity.
Qed.

Lemma Controller_update_fails err :
  time.After nextRun now = false ->
  listFault env = None ->
  updateFault env = Some err ->
  Controller.Reconcile env req w
  = (Return (mkResult 0) (Some err),
     withCall (CallStatusUpdate updated)
       (afterDeletes env "Restart pod" (listed env ns sel (cluster w0))
         (withCall (CallList ns sel) w0))).
Proof.
  intros H Hl Hu. rewrite (Controller_after_prelude _ _ _ _ _ _ _ Hpre).
  unfold conclude. rewrite Controller_act_restart by exact H.
  cbv zeta. rewrite Hl.
  rewrite (StatusUpdate_fault _ _ _ err) by auto.
  reflexivity.
Qed.

Local Abbreviation logged := (withLog (LogInfo "Time calculations") w0).

Lemma Part000_noop t :
  Part000.needsRestart nextRun now = false ->
  LastRestartTime (Status obj) = Some t ->
  Part000.Reconcile env req w
  = (Return (mkResult (time.Sub nextRun now)) None, logged).
Proof.
  intros H Hs. rewrite (Part000_after_prelude _ _ _ _ _ _ _ Hpre).
  unfold conclude. rewrite Part000_act_run. cbv zeta. rewrite H.
  now rewrite Part000_initialize_run, Hs.
Qed.

Lemma Part000_initializes :
  Part000.needsRestart nextRun now = false ->
  LastRestartTime (Status obj) = None ->
  updateFault env = None ->
  Part000.Reconcile env req w
  = (Return (mkResult (time.Sub nextRun now)) None,
     withStatus obj (mkStatus (Some now))
       (withCall (CallStatusUpdate updated) logged)).
Proof.
  intros H Hs Hu. rewrite (Part000_after_prelude _ _ _ _ _ _ _ Hpre).
  unfold conclude. rewrite Part000_act_run. cbv zeta. rewrite H.
  rewrite Part000_initialize_run, Hs.
  rewrite StatusUpdate_set by (auto; simpl; apply prelude_object).
  reflexivity.
Qed.

Lemma Part000_initialize_fails err :
  Part000.needsRestart nextRun now = false ->
  LastRestartTime (Status obj) = None ->
  updateFault env = Some err ->
  Part000.Reconcile env req w
  = (Return (mkResult 0) (Some err),
     withLog (LogError err "Failed to initialize LastRestartTime status")
       (withCall (CallStatusUpdate updated) logged)).
Proof.
  intros H Hs Hu. rewrite (Part000_after_prelude _ _ _ _ _ _ _ Hpre).
  unfold conclude. rewrite Part000_act_run. cbv zeta. rewrite H.
  rewrite Part000_initialize_run, Hs.
  rewrite (StatusUpdate_fault _ _ _ err) by auto.
  reflexivity.
Qed.

Local Abbreviation committed :=
  (withStatus obj (mkStatus (Some now)) (withCall (CallStatusUpdate updated) logged)).

Lemma Part000_restarts :
  Part000.needsRestart nextRun now = true ->
  updateFault env = None ->
  listFault env = None ->
  Part000.Reconcile env req w
  = (Return (mkResult (time.Sub nextRun now)) None,
     afterDeletes env "Restarted pod" (listed env ns sel (cluster committed))
       (withCall (CallList ns sel) committed)).
Proof.
  intros H Hu Hl. rewrite (Part000_after_prelude _ _ _ _ _ _ _ Hpre).
  unfold conclude. rewrite Part000_act_run. cbv zeta. rewrite H.
  rewrite Part000_restart_run. cbv zeta.
  rewrite StatusUpdate_set by (auto; simpl; apply prelude_object).
  rewrite Hl. reflexivity.
Qed.

Lemma Part000_restart_update_fails err :
  Part000.needsRestart nextRun now = true ->
  updateFault env = Some err ->
  Part000.Reconcile env req w
  = (Return (mkResult 0) (Some err),
     withLog (LogError err "Failed to update AutoRestartPod status")
       (withCall (CallStatusUpdate updated) logged)).
Proof.
  intros H Hu. rewrite (Part000_after_prelude _ _ _ _ _ _ _ Hpre).
  unfold conclude. rewrite Part000_act_run. cbv zeta. rewrite H.
  rewrite Part000_restart_run. cbv zeta.
  rewrite (StatusUpdate_fault _ _ _ err) by auto.
  reflexivity.
Qed.

(** The listing fails after the status has been written. *)
Lemma Part000_list_fails err :
  Part000.needsRestart nextRun now = true ->
  updateFault env = None ->
  listFault env = Some err ->
  Part000.Reconcile env req w
  = match sel with
    | Some _ =>
        (Return (mkResult 0) (Some err),
         withLog (LogError err "Failed to list pods")
           (withCall (CallList ns sel) committed))
    | None =>
        (Panicked "invalid memory address or nil pointer dereference",
         withCall (CallList ns sel) committed)
    end.
Proof.
  intros H Hu Hl. rewrite (Part000_after_prelude _ _ _ _ _ _ _ Hpre).
  unfold conclude. rewrite Part000_act_run. cbv zeta. rewrite H.
  rewrite Part000_restart_run. cbv zeta.
  rewrite StatusUpdate_set by (auto; simpl; apply prelude_object).
  rewrite Hl. destruct sel; reflexivity.
Qed.

End Paths.

(** * The restart decision *)

(** In [part_000] the listing is issued exactly when [needsRestart] holds
    (provided the status write that precedes it succeeds). *)
Lemma Part000_lists_iff_due env req w obj sch now w0 :
  prelude env req w = (Ok (obj, sch, now), w0) ->
  updateFault env = None ->
  exists extra,
    calls (snd (Part000.Reconcile env req w)) = calls w0 ++ extra
    /\ existsb isList extra = Part000.needsRestart (cron.Next sch now) now.
Proof.
  intros Hpre Hu.
  destruct (Part000.needsRestart (cron.Next sch now) now) eqn:Hdue.
  - destruct (listFault env) as [e|] eqn:Hl.
    + rewrite (Part000_list_fails _ _ _ _ _ _ _ Hpre e Hdue Hu Hl).
      destruct (dropError _); eexists; (split;
        [simpl; rewrite <- app_assoc; reflexivity|reflexivity]).
    + rewrite (Part000_restarts _ _ _ _ _ _ _ Hpre Hdue Hu Hl).
      eexists. split.
      * simpl. rewrite <- !app_assoc. reflexivity.
      * reflexivity.
  - destruct (LastRestartTime (Status obj)) as [t|] eqn:Hs.
    + rewrite (Part000_noop _ _ _ _ _ _ _ Hpre t Hdue Hs).
      exists []. simpl. now rewrite app_nil_r.
    + rewrite (Part000_initializes _ _ _ _ _ _ _ Hpre Hdue Hs Hu).
      eexists. split; [reflexivity|reflexivity].
Qed.

(** C1, on [internal/controller/autorestartpod_controller.go]: thirty
    seconds before the next activation of a five-minute schedule the next
    run is strictly after [now] and less than a minute away, yet this
    [Reconcile] only asks to be woken up in thirty seconds: it lists
    nothing, deletes nothing and leaves the cluster as it found it.  On the
    same input the [Reconcile] of [part_000] deletes the matching pods. *)
Theorem C1_controller_has_no_tolerance :
  let w := Scenario.fresh "*/5 * * * *" Sample.nginx in
  let now := Scenario.stamp Scenario.halfMinuteEarly in
  let nextRun := cron.Next Sample.everyFiveMinutes now in
  (time.After nextRun now = true /\ time.Sub nextRun now = 30 * time.Second)
  /\ Part000.needsRestart nextRun now = true
  /\ fst (Controller.Reconcile Scenario.soon Sample.request w)
     = Return (mkResult (30 * time.Second)) None
  /\ calls (snd (Controller.Reconcile Scenario.soon Sample.request w))
     = [CallGet Sample.key]
  /\ cluster (snd (Controller.Reconcile Scenario.soon Sample.request w)) = cluster w
  /\ filter isDelete (calls (snd (Part000.Reconcile Scenario.soon Sample.request w)))
     = map CallDelete Scenario.nginxPods.
Proof. vm_compute. repeat split; reflexivity. Qed.

(** * The requeue duration *)

(** C2, as stated, fails: under a schedule whose [Next] gives the zero time
    (no activation can be found), the [Reconcile] of [part_000] restarts the
    pods, writes the status, returns no error, and the requeue duration it
    returns is the most negative duration.  The [Reconcile] of the
    controller file returns the same duration on this input. *)
Lemma C2_requeue_can_be_negative :
  let w := Scenario.fresh "0 0 30 2 *" Sample.nginx in
  fst (Part000.Reconcile Scenario.atNoon Sample.request w)
  = Return (mkResult time.minDuration) None
  /\ fst (Controller.Reconcile Scenario.atNoon Sample.request w)
     = Return (mkResult time.minDuration) None
  /\ ~ 0 < time.minDuration.
Proof. vm_compute. repeat split; try reflexivity. discriminate. Qed.

(** C2, amended: whenever the schedule's next activation is strictly after
    [now], every invocation of either [Reconcile] that returns without
    error returns a strictly positive requeue duration; for [part_000] this
    covers the path on which the pods have just been restarted, where the
    duration is [schedule.Next(now) - now]. *)
Theorem C2_requeue_positive env req w obj sch now w0 :
  prelude env req w = (Ok (obj, sch, now), w0) ->
  time.instant now < time.instant (cron.Next sch now) ->
  (forall res w', Controller.Reconcile env req w = (Return res None, w') ->
                  RequeueAfter res = time.Sub (cron.Next sch now) now
                  /\ 0 < RequeueAfter res)
  /\ (forall res w', Part000.Reconcile env req w = (Return res None, w') ->
                     RequeueAfter res = time.Sub (cron.Next sch now) now
                     /\ 0 < RequeueAfter res).
Proof.
  intros Hpre Hlt.
  pose proof (Sub_positive _ _ Hlt) as Hpos.
  split; intros res w' Hrun.
  - apply After_true_iff in Hlt.
    rewrite (Controller_waits _ _ _ _ _ _ _ Hpre Hlt) in Hrun.
    injection Hrun as <- _. now split.
  - rewrite (Part000_after_prelude _ _ _ _ _ _ _ Hpre) in Hrun.
    unfold conclude in Hrun. rewrite Part000_act_run in Hrun. cbv zeta in Hrun.
    destruct (Part000.needsRestart (cron.Next sch now) now).
    + rewrite Part000_restart_run in Hrun. cbv zeta in Hrun.
      destruct (StatusUpdate env _ _) as [[u|e|m] w1]; try discriminate.
      destruct (listFault env); [destruct (dropError _); discriminate|].
      injection Hrun as <- _. now split.
    + destruct (Part000.initialize env obj now _) as [[u|e|m] w1]; try discriminate.
      injection Hrun as <- _. now split.
Qed.

(** The amended C2 on the restart path of [part_000]: thirty seconds before
    the activation both functions return without error and ask to be woken
    up in thirty seconds. *)
Lemma C2_requeue_positive_witness :
  let w := Scenario.fresh "*/5 * * * *" Sample.nginx in
  Part000.needsRestart
    (cron.Next Sample.everyFiveMinutes (Scenario.stamp Scenario.halfMinuteEarly))
    (Scenario.stamp Scenario.halfMinuteEarly) = true
  /\ (exists res w', Part000.Reconcile Scenario.soon Sample.request w = (Return res None, w')
                     /\ 0 < RequeueAfter res)
  /\ (exists res w', Controller.Reconcile Scenario.soon Sample.request w = (Return res None, w')
                     /\ 0 < RequeueAfter res).
Proof.
  cbv zeta.
  assert (Hpre : prelude Scenario.soon Sample.request
                   (Scenario.fresh "*/5 * * * *" Sample.nginx)
                 = (Ok (Sample.resource "*/5 * * * *" Sample.nginx None,
                        Sample.everyFiveMinutes,
                        Scenario.stamp Scenario.halfMinuteEarly),
                    withTick (withCall (CallGet Sample.key)
                      (Scenario.fresh "*/5 * * * *" Sample.nginx))))
    by reflexivity.
  assert (Hlt : time.instant (Scenario.stamp Scenario.halfMinuteEarly)
                < time.instant (cron.Next Sample.everyFiveMinutes
                                  (Scenario.stamp Scenario.halfMinuteEarly)))
    by (vm_compute; reflexivity).
  destruct (C2_requeue_positive _ _ _ _ _ _ _ Hpre Hlt) as [Hc Hp].
  split; [vm_compute; reflexivity|]. split.
  - destruct (Part000.Reconcile Scenario.soon Sample.request
                (Scenario.fresh "*/5 * * * *" Sample.nginx)) as [[res [e|]|m] w'] eqn:E;
      try (exfalso; vm_compute in E; discriminate).
    exists res, w'. split; [reflexivity|]. exact (proj2 (Hp res w' eq_refl)).
  - destruct (Controller.Reconcile Scenario.soon Sample.request
                (Scenario.fresh "*/5 * * * *" Sample.nginx)) as [[res [e|]|m] w'] eqn:E;
      try (exfalso; vm_compute in E; discriminate).
    exists res, w'. split; [reflexivity|]. exact (proj2 (Hc res w' eq_refl)).
Defined.

(** * First observation of an object *)

(** In [part_000], when no restart is due and the status is unset, the
    status is set to [now] and stored, and no pod is listed or deleted. *)
Lemma Part000_first_observation env req w obj sch now w0 :
  prelude env req w = (Ok (obj, sch, now), w0) ->
  Part000.needsRestart (cron.Next sch now) now = false ->
  LastRestartTime (Status obj) = None ->
  updateFault env = None ->
  let r := Part000.Reconcile env req w in
  fst r = Return (mkResult (time.Sub (cron.Next sch now) now)) None
  /\ storedLastRestartTime (cluster (snd r)) = Some now
  /\ pods (cluster (snd r)) = pods (cluster w)
  /\ calls (snd r) = calls w0 ++ [CallStatusUpdate (setLastRestartTime obj now)].
Proof.
  intros Hpre Hdue Hs Hu. cbv zeta.
  rewrite (Part000_initializes _ _ _ _ _ _ _ Hpre Hdue Hs Hu).
  rewrite (prelude_world _ _ _ _ _ _ _ Hpre). repeat split.
Qed.

(** In [part_000] a reconciliation that returns without error never leaves
    the field unset. *)
Lemma Part000_never_left_unset env req w res w' :
  Part000.Reconcile env req w = (Return res None, w') ->
  storedLastRestartTime (cluster w') <> None.
Proof.
  intros Hrun.
  destruct (prelude_cases env req w)
    as [(obj & sch & now & Hpre & _ & Ho & _)|(e & l & Hpre)].
  2:{ rewrite (Part000_prelude_fails _ _ _ _ _ Hpre) in Hrun. discriminate. }
  rewrite (Part000_after_prelude _ _ _ _ _ _ _ Hpre) in Hrun.
  unfold conclude in Hrun. rewrite Part000_act_run in Hrun. cbv zeta in Hrun.
  destruct (Part000.needsRestart (cron.Next sch now) now).
  - rewrite Part000_restart_run in Hrun. cbv zeta in Hrun.
    rewrite StatusUpdate_run in Hrun.
    destruct (updateFault env); [discriminate|].
    simpl object in Hrun. rewrite Ho in Hrun. simpl ObjectMeta in Hrun.
    rewrite sameName_refl in Hrun.
    destruct (listFault env); [destruct (dropError _); discriminate|].
    injection Hrun as _ <-. discriminate.
  - rewrite Part000_initialize_run in Hrun.
    destruct (LastRestartTime (Status obj)) as [t|] eqn:Hs.
    + injection Hrun as _ <-. unfold storedLastRestartTime. simpl.
      rewrite Ho, Hs. discriminate.
    + rewrite StatusUpdate_run in Hrun.
      destruct (updateFault env); [discriminate|].
      simpl object in Hrun. rewrite Ho in Hrun. simpl ObjectMeta in Hrun.
      rewrite sameName_refl in Hrun.
      injection Hrun as _ <-. discriminate.
Qed.

(** C3, on [internal/controller/autorestartpod_controller.go]: on a
    five-minute boundary the next activation is five minutes away, so no
    restart is due, and the object has no [lastRestartTime] yet.  This
    [Reconcile] returns without error and without any status write: the
    field is still unset afterwards.  On the same input the [Reconcile] of
    [part_000] stores [now] in the field and deletes no pod. *)
Theorem C3_controller_leaves_status_unset :
  let w := Scenario.fresh "*/5 * * * *" Sample.nginx in
  let now := Scenario.stamp Sample.noon in
  let c := Controller.Reconcile Scenario.atNoon Sample.request w in
  let p := Part000.Reconcile Scenario.atNoon Sample.request w in
  Part000.needsRestart (cron.Next Sample.everyFiveMinutes now) now = false
  /\ storedLastRestartTime (cluster w) = None
  /\ fst c = Return (mkResult (5 * time.Minute)) None
  /\ storedLastRestartTime (cluster (snd c)) = None
  /\ filter isStatusUpdate (calls (snd c)) = []
  /\ fst p = Return (mkResult (5 * time.Minute)) None
  /\ storedLastRestartTime (cluster (snd p)) = Some now
  /\ pods (cluster (snd p)) = pods (cluster w)
  /\ filter isDelete (calls (snd p)) = [].
Proof. vm_compute. repeat split; reflexivity. Qed.

(** * A failed listing *)

(** In the controller file a failed listing ends the attempt with that
    error before anything has been deleted or written. *)
Lemma Controller_list_failure_changes_nothing env req w obj sch now w0 err :
  prelude env req w = (Ok (obj, sch, now), w0) ->
  time.After (cron.Next sch now) now = false ->
  listFault env = Some err ->
  let r := Controller.Reconcile env req w in
  fst r = Return (mkResult 0) (Some err)
  /\ cluster (snd r) = cluster w
  /\ filter isDelete (calls (snd r)) = filter isDelete (calls w)
  /\ filter isStatusUpdate (calls (snd r)) = filter isStatusUpdate (calls w).
Proof.
  intros Hpre Hdue Hl. cbv zeta.
  rewrite (Controller_list_fails _ _ _ _ _ _ _ Hpre err Hdue Hl).
  rewrite (prelude_world _ _ _ _ _ _ _ Hpre). simpl.
  rewrite !filter_app. simpl. now rewrite !app_nil_r.
Qed.

(** C4, on [part_000]: thirty seconds before the activation a restart is
    due and the listing fails.  [Reconcile] returns the listing error and
    attempts no deletion, but the status write has already been committed:
    the stored [lastRestartTime], unset before, is [now] afterwards. *)
Theorem C4_part000_commits_status_before_listing :
  let w := Scenario.fresh "*/5 * * * *" Sample.nginx in
  let r := Part000.Reconcile Scenario.listFails Sample.request w in
  fst r = Return (mkResult 0) (Some (errorString "list failed"))
  /\ filter isDelete (calls (snd r)) = []
  /\ pods (cluster (snd r)) = pods (cluster w)
  /\ storedLastRestartTime (cluster w) = None
  /\ storedLastRestartTime (cluster (snd r)) = Some (Scenario.stamp Scenario.halfMinuteEarly)
  /\ cluster (snd r) <> cluster w.
Proof. vm_compute. repeat split; try reflexivity. discriminate. Qed.

(** * A malformed selector *)

(** C5, on both files: the selector of this object has an operator that is
    not a set operator, so its resolution fails.  Neither [Reconcile]
    returns at that point: the error is dropped and the selector left nil.
    Thirty seconds before the activation the [Reconcile] of [part_000] has
    already written the status, which was unset and now carries [now], and
    then calls List with the nil selector; under a schedule without
    activation the [Reconcile] of the controller file calls List with the
    nil selector right after fetching the object.  This is so whatever
    that listing then answers. *)
Theorem C5_selector_error_is_dropped (listFault : option error) :
  let w := Scenario.fresh "*/5 * * * *" Sample.malformed in
  let r := Part000.Reconcile (Edge.soonListing listFault) Sample.request w in
  let w' := Scenario.fresh "0 0 30 2 *" Sample.malformed in
  let r' := Controller.Reconcile (Edge.atNoonListing listFault) Sample.request w' in
  dropError (LabelSelectorAsSelector (Edge.soonListing listFault) Sample.malformed) = None
  /\ firstn 3 (calls (snd r))
     = [CallGet Sample.key;
        CallStatusUpdate (setLastRestartTime
          (Sample.resource "*/5 * * * *" Sample.malformed None)
          (Scenario.stamp Scenario.halfMinuteEarly));
        CallList "default" None]
  /\ storedLastRestartTime (cluster w) = None
  /\ storedLastRestartTime (cluster (snd r)) = Some (Scenario.stamp Scenario.halfMinuteEarly)
  /\ firstn 2 (calls (snd r')) = [CallGet Sample.key; CallList "default" None].
Proof.
  destruct listFault as [e|]; vm_compute; repeat split; reflexivity.
Qed.

(** * The schedule resolver *)

(** C6: [parseCronSchedule] gives the result of the five-field parser
    whenever that parser succeeds, whatever the six-field parser would say;
    it gives the result of the six-field parser when the five-field parser
    fails; and when both fail, either [Reconcile] returns the error of the
    six-field parser, having only fetched the object: the cluster is as
    before, and no listing, deletion or status write was issued. *)
Theorem C6_five_fields_first env schedule :
  (forall sch, standardParse env schedule = Value sch ->
     parseCronSchedule env schedule = Value sch)
  /\ (forall e5, standardParse env schedule = Err e5 ->
     parseCronSchedule env schedule = secondsParse env schedule)
  /\ (forall req w obj e5 e6,
     getFault env = None ->
     object (cluster w) = Some obj ->
     sameName (ObjectMeta obj) (Req req) = true ->
     Schedule (Spec obj) = schedule ->
     standardParse env schedule = Err e5 ->
     secondsParse env schedule = Err e6 ->
     let w' := withLog (LogError e6 "Failed to parse cron schedule")
                 (withCall (CallGet (Req req)) w) in
     Controller.Reconcile env req w = (Return (mkResult 0) (Some e6), w')
     /\ Part000.Reconcile env req w = (Return (mkResult 0) (Some e6), w')
     /\ cluster w' = cluster w
     /\ calls w' = calls w ++ [CallGet (Req req)]).
Proof.
  split; [|split].
  - intros sch H. unfold parseCronSchedule, standardParse, cron.NewParser in *.
    now rewrite H.
  - intros e5 H. unfold parseCronSchedule, standardParse, secondsParse, cron.NewParser in *.
    now rewrite H.
  - intros req w obj e5 e6 Hg Ho Hn Hs H5 H6. cbv zeta.
    assert (Hpre : prelude env req w
                   = (Fail e6, withLog (LogError e6 "Failed to parse cron schedule")
                                 (withCall (CallGet (Req req)) w))).
    { unfold prelude. rewrite bind_run, Get_run, Hg, Ho, Hn, bind_run.
      unfold resolveSchedule, parseCronSchedule, cron.NewParser.
      unfold standardParse in H5. unfold secondsParse in H6.
      rewrite Hs, H5, H6. reflexivity. }
    rewrite (Controller_prelude_fails _ _ _ _ _ Hpre).
    rewrite (Part000_prelude_fails _ _ _ _ _ Hpre).
    repeat split.
Qed.

(** C6 on the sample parsers: a five-field expression, a six-field
    expression, and an expression that neither parser accepts. *)
Lemma C6_five_fields_first_witness :
  parseCronSchedule Scenario.atNoon "*/5 * * * *" = Value Sample.everyFiveMinutes
  /\ parseCronSchedule Scenario.atNoon "0 */5 * * * *" = Value Sample.everyFiveMinutes
  /\ fst (Part000.Reconcile Scenario.atNoon Sample.request
            (Scenario.fresh Scenario.notACron Sample.nginx))
     = Return (mkResult 0) (Some (errorString "expected exactly 6 fields"))
  /\ fst (Controller.Reconcile Scenario.atNoon Sample.request
            (Scenario.fresh Scenario.notACron Sample.nginx))
     = Return (mkResult 0) (Some (errorString "expected exactly 6 fields")).
Proof.
  split; [|split].
  - exact (proj1 (C6_five_fields_first Scenario.atNoon "*/5 * * * *") _ eq_refl).
  - rewrite (proj1 (proj2 (C6_five_fields_first Scenario.atNoon "0 */5 * * * *"))
               (errorString "expected exactly 5 fields") eq_refl).
    reflexivity.
  - destruct (proj2 (proj2 (C6_five_fields_first Scenario.atNoon Scenario.notACron))
                Sample.request (Scenario.fresh Scenario.notACron Sample.nginx)
                (Sample.resource Scenario.notACron Sample.nginx None)
                (errorString "expected exactly 5 fields")
                (errorString "expected exactly 6 fields")
                eq_refl eq_refl eq_refl eq_refl eq_refl eq_refl) as (Hc & Hp & _).
    rewrite Hc, Hp. split; reflexivity.
Defined.

(** * Retrying after a restart *)

(** C7, as stated, fails.  Thirty seconds before the activation the
    [Reconcile] of [part_000] restarts the pods and commits
    [lastRestartTime]; the pods are recreated; a second run, one second
    later, reads the committed status and restarts the pods again. *)
Lemma C7_retry_restarts_again :
  filter isDelete (calls (snd Retry.first)) = map CallDelete Scenario.nginxPods
  /\ storedLastRestartTime (cluster Retry.between)
     = Some (Scenario.stamp Scenario.halfMinuteEarly)
  /\ prelude Scenario.soon Sample.request Retry.between
     = (Ok (Sample.resource "*/5 * * * *" Sample.nginx
              (Some (Scenario.stamp Scenario.halfMinuteEarly)),
            Sample.everyFiveMinutes, Retry.now),
        withTick (withCall (CallGet Sample.key) Retry.between))
  /\ Part000.needsRestart (cron.Next Sample.everyFiveMinutes Retry.now) Retry.now = true
  /\ fst Retry.retry = Return (mkResult (29 * time.Second)) None
  /\ filter isDelete (calls (snd Retry.retry)) = map CallDelete Scenario.nginxPods.
Proof.
  split; [vm_compute; reflexivity|].
  split; [vm_compute; reflexivity|].
  split; [reflexivity|].
  split; [vm_compute; reflexivity|].
  split; vm_compute; reflexivity.
Qed.

(** C7, amended: the decision never consults [lastRestartTime].  Against a
    freshly read status whose [lastRestartTime] is set, a run is a no-op
    (the cluster is untouched, only the object was fetched) that asks to be
    woken up after [schedule.Next(now) - now] exactly when the schedule and
    [now] alone say that nothing is due: for [part_000], when the next
    activation is at least a minute away; for the controller file, when it
    is after [now].  Otherwise the pods are listed and deleted again,
    whatever the recorded time. *)
Theorem C7_retry_decision env req w obj sch now w0 t :
  prelude env req w = (Ok (obj, sch, now), w0) ->
  LastRestartTime (Status obj) = Some t ->
  let ns := Namespace (Req req) in
  let sel := dropError (LabelSelectorAsSelector env (Selector (Spec obj))) in
  let ps := listed env ns sel (cluster w) in
  let p := Part000.Reconcile env req w in
  let c := Controller.Reconcile env req w in
  (Part000.needsRestart (cron.Next sch now) now = false ->
     fst p = Return (mkResult (time.Sub (cron.Next sch now) now)) None
     /\ cluster (snd p) = cluster w
     /\ calls (snd p) = calls w ++ [CallGet (Req req)])
  /\ (Part000.needsRestart (cron.Next sch now) now = true ->
      updateFault env = None -> listFault env = None ->
      calls (snd p)
      = calls w ++ CallGet (Req req) :: CallStatusUpdate (setLastRestartTime obj now)
                :: CallList ns sel :: map CallDelete ps)
  /\ (time.After (cron.Next sch now) now = true ->
      fst c = Return (mkResult (time.Sub (cron.Next sch now) now)) None
      /\ cluster (snd c) = cluster w
      /\ calls (snd c) = calls w ++ [CallGet (Req req)])
  /\ (time.After (cron.Next sch now) now = false ->
      updateFault env = None -> listFault env = None ->
      calls (snd c)
      = calls w ++ CallGet (Req req) :: CallList ns sel :: map CallDelete ps
                ++ [CallStatusUpdate (setLastRestartTime obj now)]).
Proof.
  intros Hpre Hs. cbv zeta.
  pose proof (prelude_world _ _ _ _ _ _ _ Hpre) as Hw0.
  split; [|split; [|split]].
  - intros H. rewrite (Part000_noop _ _ _ _ _ _ _ Hpre t H Hs), Hw0.
    repeat split.
  - intros H Hu Hl. rewrite (Part000_restarts _ _ _ _ _ _ _ Hpre H Hu Hl), Hw0.
    simpl. rewrite <- !app_assoc. reflexivity.
  - intros H. rewrite (Controller_waits _ _ _ _ _ _ _ Hpre H), Hw0.
    repeat split.
  - intros H Hu Hl. rewrite (Controller_restarts _ _ _ _ _ _ _ Hpre H Hl Hu), Hw0.
    simpl. rewrite <- !app_assoc. reflexivity.
Qed.

(** The amended C7 on the retry of the scenario (the pods are restarted
    again by [part_000], while the controller file waits), and on a retry
    that comes when the next activation is five minutes away (a no-op). *)
Lemma C7_retry_decision_witness :
  calls (snd Retry.retry)
  = [CallGet Sample.key;
     CallStatusUpdate (setLastRestartTime
       (Sample.resource "*/5 * * * *" Sample.nginx
          (Some (Scenario.stamp Scenario.halfMinuteEarly))) Retry.now);
     CallList "default" (dropError (Sample.LabelSelectorAsSelector Sample.nginx))]
    ++ map CallDelete Scenario.nginxPods
  /\ fst (Controller.Reconcile Scenario.soon Sample.request Retry.between)
     = Return (mkResult (time.Sub (cron.Next Sample.everyFiveMinutes Retry.now) Retry.now)) None
  /\ fst (Part000.Reconcile Scenario.atNoon Sample.request
            (Sample.world (Sample.resource "*/5 * * * *" Sample.nginx
                             (Some (Scenario.stamp Scenario.halfMinuteEarly)))
                          Scenario.nginxPods))
     = Return (mkResult (time.Sub (cron.Next Sample.everyFiveMinutes (Scenario.stamp Sample.noon))
                                  (Scenario.stamp Sample.noon))) None.
Proof.
  assert (Hpre : prelude Scenario.soon Sample.request Retry.between
                 = (Ok (Sample.resource "*/5 * * * *" Sample.nginx
                          (Some (Scenario.stamp Scenario.halfMinuteEarly)),
                        Sample.everyFiveMinutes, Retry.now),
                    withTick (withCall (CallGet Sample.key) Retry.between)))
    by reflexivity.
  assert (Hdue : Part000.needsRestart
                   (cron.Next Sample.everyFiveMinutes Retry.now) Retry.now = true)
    by (vm_compute; reflexivity).
  assert (Hafter : time.After (cron.Next Sample.everyFiveMinutes Retry.now) Retry.now = true)
    by (vm_compute; reflexivity).
  destruct (C7_retry_decision _ _ _ _ _ _ _ _ Hpre eq_refl) as (_ & Hp & Hc & _).
  split; [exact (Hp Hdue eq_refl eq_refl)|].
  split; [exact (proj1 (Hc Hafter))|].
  assert (Hpre' : prelude Scenario.atNoon Sample.request
                    (Sample.world (Sample.resource "*/5 * * * *" Sample.nginx
                                     (Some (Scenario.stamp Scenario.halfMinuteEarly)))
                                  Scenario.nginxPods)
                  = (Ok (Sample.resource "*/5 * * * *" Sample.nginx
                           (Some (Scenario.stamp Scenario.halfMinuteEarly)),
                         Sample.everyFiveMinutes, Scenario.stamp Sample.noon),
                     withTick (withCall (CallGet Sample.key)
                       (Sample.world (Sample.resource "*/5 * * * *" Sample.nginx
                                        (Some (Scenario.stamp Scenario.halfMinuteEarly)))
                                     Scenario.nginxPods))))
    by reflexivity.
  assert (Hnot : Part000.needsRestart
                   (cron.Next Sample.everyFiveMinutes (Scenario.stamp Sample.noon))
                   (Scenario.stamp Sample.noon) = false)
    by (vm_compute; reflexivity).
  destruct (C7_retry_decision _ _ _ _ _ _ _ _ Hpre' eq_refl) as (Hq & _).
  exact (proj1 (Hq Hnot)).
Defined.

(** * Deletion failures *)

Lemma filter_isDelete_deletes ps : filter isDelete (map CallDelete ps) = map CallDelete ps.
Proof. induction ps as [|p ps IH]; simpl; [reflexivity|now rewrite IH]. Qed.

Lemma survives_spec env ps q p :
  survives env ps q = true -> In p ps -> deleteFault env p = None ->
  sameName (PodMeta q) (PodMeta p) = false.
Proof.
  unfold survives. rewrite negb_true_iff. intros Hex Hin Hf.
  destruct (sameName (PodMeta q) (PodMeta p)) eqn:E; [|reflexivity].
  assert (existsb (fun x => deleted env x && sameName (PodMeta q) (PodMeta x)) ps = true)
    as Habs; [|congruence].
  apply existsb_exists. exists p. split; [exact Hin|].
  unfold deleted. now rewrite Hf, E.
Qed.

Lemma afterDeletes_tolerates env okMsg ps w :
  let w' := afterDeletes env okMsg ps w in
  filter isDelete (calls w') = filter isDelete (calls w) ++ map CallDelete ps
  /\ (forall p, In p ps -> deleteFault env p = None ->
        forall q, In q (pods (cluster w')) -> sameName (PodMeta q) (PodMeta p) = false)
  /\ (forall p err, In p ps -> deleteFault env p = Some err ->
        In (LogError err "Failed to delete pod") (logs w')).
Proof.
  cbv zeta. unfold afterDeletes. simpl. split; [|split].
  - now rewrite filter_app, filter_isDelete_deletes.
  - intros p Hin Hf q Hq. apply filter_In in Hq as [_ Hs].
    exact (survives_spec _ _ _ _ Hs Hin Hf).
  - intros p err Hin Hf. apply in_or_app. right.
    apply in_map_iff. exists p. split; [|exact Hin].
    unfold deleteLog. now rewrite Hf.
Qed.

(** C8: on the restart path of either [Reconcile], when the listing and
    the status write succeed, the outcome of the individual deletions does
    not matter: whichever of them fail, every matched pod is the target of
    one delete call, in the order of the listing, each failure is logged,
    the pods whose deletion did not fail are gone, the status carrying
    [now] is stored, and [Reconcile] returns without error. *)
Theorem C8_delete_failures_tolerated env req w obj sch now w0 :
  prelude env req w = (Ok (obj, sch, now), w0) ->
  listFault env = None ->
  updateFault env = None ->
  let ns := Namespace (Req req) in
  let sel := dropError (LabelSelectorAsSelector env (Selector (Spec obj))) in
  let ps := listed env ns sel (cluster w) in
  (time.After (cron.Next sch now) now = false ->
     restartedDespiteFailures env now ps w (Controller.Reconcile env req w))
  /\ (Part000.needsRestart (cron.Next sch now) now = true ->
     restartedDespiteFailures env now ps w (Part000.Reconcile env req w)).
Proof.
  intros Hpre Hl Hu. cbv zeta.
  pose proof (prelude_world _ _ _ _ _ _ _ Hpre) as Hw0.
  split; intros Hdue; unfold restartedDespiteFailures.
  - rewrite (Controller_restarts _ _ _ _ _ _ _ Hpre Hdue Hl Hu).
    split; [eexists; reflexivity|].
    match goal with
    | |- context [afterDeletes ?e ?m ?l ?x] =>
        destruct (afterDeletes_tolerates e m l x) as (Hc & Hp & Hg)
    end.
    cbn [snd withTick withStatus withCall calls cluster pods logs object].
    cbn [snd withTick withStatus withCall calls cluster pods logs object] in Hc, Hp, Hg.
    rewrite Hw0 in *.
    cbn [withTick withCall calls cluster pods logs object] in *.
    split; [|split; [reflexivity|split; [exact Hp|exact Hg]]].
    rewrite filter_app, Hc, !filter_app. simpl. now rewrite !app_nil_r.
  - rewrite (Part000_restarts _ _ _ _ _ _ _ Hpre Hdue Hu Hl).
    split; [eexists; reflexivity|].
    match goal with
    | |- context [afterDeletes ?e ?m ?l ?x] =>
        destruct (afterDeletes_tolerates e m l x) as (Hc & Hp & Hg)
    end.
    cbn [snd withTick withStatus withCall withLog calls cluster pods logs object].
    cbn [snd withTick withStatus withCall withLog calls cluster pods logs object]
      in Hc, Hp, Hg.
    rewrite Hw0 in *.
    cbn [withTick withCall withLog calls cluster pods logs object] in *.
    split; [|split; [reflexivity|split; [exact Hp|exact Hg]]].
    rewrite Hc, !filter_app. simpl. now rewrite !app_nil_r.
Qed.

(** C8 with three matched pods of which the second cannot be deleted,
    under a schedule without activation, for which both functions
    restart. *)
Lemma C8_delete_failures_tolerated_witness :
  let w := Scenario.fresh "0 0 30 2 *" Sample.nginx in
  restartedDespiteFailures Scenario.flakyAtNoon (Scenario.stamp Sample.noon)
    Scenario.nginxPods w (Controller.Reconcile Scenario.flakyAtNoon Sample.request w)
  /\ restartedDespiteFailures Scenario.flakyAtNoon (Scenario.stamp Sample.noon)
    Scenario.nginxPods w (Part000.Reconcile Scenario.flakyAtNoon Sample.request w).
Proof.
  cbv zeta.
  assert (Hpre : prelude Scenario.flakyAtNoon Sample.request
                   (Scenario.fresh "0 0 30 2 *" Sample.nginx)
                 = (Ok (Sample.resource "0 0 30 2 *" Sample.nginx None,
                        Sample.unsatisfiable, Scenario.stamp Sample.noon),
                    withTick (withCall (CallGet Sample.key)
                      (Scenario.fresh "0 0 30 2 *" Sample.nginx))))
    by reflexivity.
  destruct (C8_delete_failures_tolerated _ _ _ _ _ _ _ Hpre eq_refl eq_refl) as [Hc Hp].
  split.
  - exact (Hc eq_refl).
  - exact (Hp eq_refl).
Defined.

(** One of three matched pods fails deletion, thirty seconds before the
    activation, in [part_000]: the other two are gone, the status is
    stored, and the reconciliation succeeds. *)
Example one_of_three_fails :
  let r := Part000.Reconcile Scenario.flaky Sample.request
             (Scenario.fresh "*/5 * * * *" Sample.nginx) in
  fst r = Return (mkResult (30 * time.Second)) None
  /\ filter isDelete (calls (snd r)) = map CallDelete Scenario.nginxPods
  /\ pods (cluster (snd r)) = [Sample.pod "nginx-1"; Sample.other]
  /\ storedLastRestartTime (cluster (snd r)) = Some (Scenario.stamp Scenario.halfMinuteEarly)
  /\ logs (snd r)
     = [LogInfo "Time calculations"; LogInfo "Restarted pod";
        LogError (errorString "delete failed") "Failed to delete pod";
        LogInfo "Restarted pod"].
Proof. vm_compute. repeat split; reflexivity. Qed.

(** * The recorded restart time over the life of an object *)

Lemma notBefore_refl a : notBefore a a.
Proof. destruct a; simpl; [lia|exact I]. Qed.

Lemma notBefore_trans a b c : notBefore a b -> notBefore b c -> notBefore a c.
Proof. destruct a, b, c; simpl; try tauto; lia. Qed.

Lemma writesNow_unchanged env w w' :
  cluster w' = cluster w -> (ticks w <= ticks w')%nat -> writesNow env w w'.
Proof. intros Hc Ht. unfold writesNow. rewrite Hc. auto. Qed.

Lemma writesNow_written env w w' now :
  storedLastRestartTime (cluster w') = Some now ->
  time.instant now = wall env (ticks w) ->
  (ticks w <= ticks w')%nat -> writesNow env w w'.
Proof. intros Hs Hn Ht. unfold writesNow. split; [exact Ht|]. right. now exists now. Qed.

Lemma Controller_writesNow env req w :
  writesNow env w (snd (Controller.Reconcile env req w)).
Proof.
  destruct (prelude_cases env req w)
    as [(obj & sch & now & Hpre & _ & Ho & _ & _ & Hnow)|(e & l & Hpre)].
  2:{ rewrite (Controller_prelude_fails _ _ _ _ _ Hpre).
      apply writesNow_unchanged; simpl; auto. }
  destruct (time.After (cron.Next sch now) now) eqn:Hdue.
  { rewrite (Controller_waits _ _ _ _ _ _ _ Hpre Hdue).
    apply writesNow_unchanged; simpl; auto. }
  destruct (listFault env) as [e|] eqn:Hl.
  { rewrite (Controller_list_fails _ _ _ _ _ _ _ Hpre e Hdue Hl).
    apply writesNow_unchanged; simpl; auto. }
  destruct (updateFault env) as [e|] eqn:Hu.
  - rewrite (Controller_update_fails _ _ _ _ _ _ _ Hpre e Hdue Hl Hu).
    unfold writesNow. simpl. split; [auto|]. left. reflexivity.
  - rewrite (Controller_restarts _ _ _ _ _ _ _ Hpre Hdue Hl Hu).
    apply (writesNow_written _ _ _ now); simpl; auto.
Qed.

Lemma Part000_writesNow env req w :
  writesNow env w (snd (Part000.Reconcile env req w)).
Proof.
  destruct (prelude_cases env req w)
    as [(obj & sch & now & Hpre & _ & Ho & _ & _ & Hnow)|(e & l & Hpre)].
  2:{ rewrite (Part000_prelude_fails _ _ _ _ _ Hpre).
      apply writesNow_unchanged; simpl; auto. }
  destruct (Part000.needsRestart (cron.Next sch now) now) eqn:Hdue.
  - destruct (updateFault env) as [e|] eqn:Hu.
    { rewrite (Part000_restart_update_fails _ _ _ _ _ _ _ Hpre e Hdue Hu).
      apply writesNow_unchanged; simpl; auto. }
    destruct (listFault env) as [e|] eqn:Hl.
    + rewrite (Part000_list_fails _ _ _ _ _ _ _ Hpre e Hdue Hu Hl).
      destruct (dropError _); apply (writesNow_written _ _ _ now); simpl; auto.
    + rewrite (Part000_restarts _ _ _ _ _ _ _ Hpre Hdue Hu Hl).
      apply (writesNow_written _ _ _ now); simpl; auto.
  - destruct (LastRestartTime (Status obj)) as [t|] eqn:Hs.
    { rewrite (Part000_noop _ _ _ _ _ _ _ Hpre t Hdue Hs).
      apply writesNow_unchanged; simpl; auto. }
    destruct (updateFault env) as [e|] eqn:Hu.
    + rewrite (Part000_initialize_fails _ _ _ _ _ _ _ Hpre e Hdue Hs Hu).
      apply writesNow_unchanged; simpl; auto.
    + rewrite (Part000_initializes _ _ _ _ _ _ _ Hpre Hdue Hs Hu).
      apply (writesNow_written _ _ _ now); simpl; auto.
Qed.

Section Monotone.

Variable clock : nat -> Z.
Variable reconcile : Env -> Request -> World -> Returned * World.
Hypothesis Hclock : monotoneClock clock.
Hypothesis Hwrites : forall env req w, writesNow env w (snd (reconcile env req w)).

Lemma step_monotone w w' :
  step clock reconcile w w' ->
  recordedInPast clock w ->
  notBefore (storedLastRestartTime (cluster w)) (storedLastRestartTime (cluster w'))
  /\ recordedInPast clock w'.
Proof.
  intros Hstep Hinv. destruct Hstep as [env req w Hwall|w c n Hsame Hn].
  - destruct (Hwrites env req w) as [Ht [Hs|(t & Hs & Hi)]].
    + unfold recordedInPast in *. rewrite Hs. split; [apply notBefore_refl|].
      destruct (storedLastRestartTime (cluster w)); [|exact I].
      pose proof (Hclock _ _ Ht). lia.
    + unfold recordedInPast in *. rewrite Hs, Hwall in *.
      pose proof (Hclock _ _ Ht).
      destruct (storedLastRestartTime (cluster w)); simpl; split; lia || exact I.
  - unfold recordedInPast in *. simpl. rewrite Hsame.
    split; [apply notBefore_refl|].
    destruct (storedLastRestartTime (cluster w)); [|exact I].
    pose proof (Hclock _ _ Hn). lia.
Qed.

Lemma steps_monotone w w' :
  steps clock reconcile w w' ->
  recordedInPast clock w ->
  notBefore (storedLastRestartTime (cluster w)) (storedLastRestartTime (cluster w')).
Proof.
  induction 1 as [w|w1 w2 w3 Hstep Hsteps IH]; intros Hinv.
  - apply notBefore_refl.
  - destruct (step_monotone _ _ Hstep Hinv) as [Hle Hinv2].
    exact (notBefore_trans _ _ _ Hle (IH Hinv2)).
Qed.

End Monotone.

(** C9: take a clock that never goes back and a world in which the
    recorded restart time, if there is one, is not ahead of the clock (as
    for a newly created object, which has none).  Along every sequence of
    reconciliations of the object by either [Reconcile], interleaved with
    arbitrary changes to the rest of the cluster, the stored
    [lastRestartTime] never decreases; and each single run either leaves
    it alone or replaces it by the clock reading it took as [now]. *)
Theorem C9_lastRestartTime_never_decreases clock w w' :
  monotoneClock clock ->
  recordedInPast clock w ->
  (steps clock Controller.Reconcile w w' ->
     notBefore (storedLastRestartTime (cluster w)) (storedLastRestartTime (cluster w')))
  /\ (steps clock Part000.Reconcile w w' ->
     notBefore (storedLastRestartTime (cluster w)) (storedLastRestartTime (cluster w')))
  /\ (forall env req, writesNow env w (snd (Controller.Reconcile env req w)))
  /\ (forall env req, writesNow env w (snd (Part000.Reconcile env req w))).
Proof.
  intros Hclock Hinv. split; [|split; [|split]].
  - intros Hsteps.
    exact (steps_monotone clock _ Hclock Controller_writesNow _ _ Hsteps Hinv).
  - intros Hsteps.
    exact (steps_monotone clock _ Hclock Part000_writesNow _ _ Hsteps Hinv).
  - intros env req. apply Controller_writesNow.
  - intros env req. apply Part000_writesNow.
Qed.

Lemma clockFrom_monotone t : monotoneClock (Sample.clockFrom t).
Proof.
  intros i j Hij. unfold Sample.clockFrom, time.Second, time.Nanosecond. lia.
Qed.

Lemma stretch_steps reconcile :
  steps Stretch.clock reconcile Stretch.start (Stretch.finish reconcile).
Proof.
  apply (steps_next _ _ _ (snd (reconcile Scenario.soon Sample.request Stretch.start))).
  { apply step_reconcile. reflexivity. }
  apply (steps_next _ _ _
           (Stretch.podsBack (snd (reconcile Scenario.soon Sample.request Stretch.start)))).
  { apply step_outside; [reflexivity|apply Nat.le_add_r]. }
  apply (steps_next _ _ _ (Stretch.finish reconcile)).
  { apply step_reconcile. reflexivity. }
  apply steps_refl.
Qed.

(** C9 along the stretch: the time recorded five minutes earlier is not
    after what either function leaves in the status; for [part_000], which
    restarts twice, that is the reading of the second run. *)
Lemma C9_lastRestartTime_never_decreases_witness :
  notBefore (Some Stretch.earlier)
    (storedLastRestartTime (cluster (Stretch.finish Controller.Reconcile)))
  /\ notBefore (Some Stretch.earlier)
    (storedLastRestartTime (cluster (Stretch.finish Part000.Reconcile)))
  /\ storedLastRestartTime (cluster (Stretch.finish Part000.Reconcile))
     = Some (Scenario.stamp (Scenario.halfMinuteEarly + 3 * time.Second)).
Proof.
  assert (Hinv : recordedInPast Stretch.clock Stretch.start)
    by (vm_compute; discriminate).
  split; [|split].
  - exact (proj1 (C9_lastRestartTime_never_decreases Stretch.clock Stretch.start
                    (Stretch.finish Controller.Reconcile)
                    (clockFrom_monotone _) Hinv)
                 (stretch_steps Controller.Reconcile)).
  - exact (proj1 (proj2 (C9_lastRestartTime_never_decreases Stretch.clock Stretch.start
                    (Stretch.finish Part000.Reconcile)
                    (clockFrom_monotone _) Hinv))
                 (stretch_steps Part000.Reconcile)).
  - vm_compute. reflexivity.
Defined.

(** * The two files side by side *)

(** C10: the two functions are not equivalent.  Thirty seconds before the
    activation they return the same value, but the one of [part_000] has
    written the status and deleted the matching pods and the one of the
    controller file has done neither.  On the boundary, with the status
    unset, they return the same value, but only the one of [part_000] has
    written the status.  Under a schedule without activation and with a
    failing listing, they return the same error and delete nothing, but
    the one of [part_000] has already written the status. *)
Theorem C10_files_differ :
  let w := Scenario.fresh "*/5 * * * *" Sample.nginx in
  let c := Controller.Reconcile Scenario.soon Sample.request w in
  let p := Part000.Reconcile Scenario.soon Sample.request w in
  let c3 := Controller.Reconcile Scenario.atNoon Sample.request w in
  let p3 := Part000.Reconcile Scenario.atNoon Sample.request w in
  let w4 := Scenario.fresh "0 0 30 2 *" Sample.nginx in
  let c4 := Controller.Reconcile Edge.listFailsAtNoon Sample.request w4 in
  let p4 := Part000.Reconcile Edge.listFailsAtNoon Sample.request w4 in
  (fst c = fst p
   /\ filter isDelete (calls (snd c)) = []
   /\ filter isDelete (calls (snd p)) = map CallDelete Scenario.nginxPods
   /\ filter isStatusUpdate (calls (snd c)) = []
   /\ storedLastRestartTime (cluster (snd c)) = None
   /\ storedLastRestartTime (cluster (snd p))
      = Some (Scenario.stamp Scenario.halfMinuteEarly))
  /\ (fst c3 = fst p3
      /\ filter isStatusUpdate (calls (snd c3)) = []
      /\ storedLastRestartTime (cluster (snd c3)) = None
      /\ storedLastRestartTime (cluster (snd p3)) = Some (Scenario.stamp Sample.noon))
  /\ (fst c4 = Return (mkResult 0) (Some (errorString "list failed"))
      /\ fst p4 = Return (mkResult 0) (Some (errorString "list failed"))
      /\ filter isDelete (calls (snd c4)) = []
      /\ filter isDelete (calls (snd p4)) = []
      /\ filter isStatusUpdate (calls (snd c4)) = []
      /\ storedLastRestartTime (cluster (snd c4)) = None
      /\ storedLastRestartTime (cluster (snd p4)) = Some (Scenario.stamp Sample.noon)).
Proof. vm_compute. repeat split; reflexivity. Qed.

(** * Failures before the decision *)

Lemma prelude_get_fault env req w err :
  getFault env = Some err ->
  prelude env req w = (Fail err, withCall (CallGet (Req req)) w).
Proof.
  intros H. unfold prelude. now rewrite bind_run, Get_run, H.
Qed.

Lemma prelude_get_missing env req w :
  getFault env = None ->
  match object (cluster w) with
  | Some o => sameName (ObjectMeta o) (Req req) = false
  | None => True
  end ->
  prelude env req w = (Fail notFound, withCall (CallGet (Req req)) w).
Proof.
  intros H Ho. unfold prelude. rewrite bind_run, Get_run, H.
  destruct (object (cluster w)) as [o|]; [|reflexivity].
  now rewrite Ho.
Qed.

(** X1: when the object cannot be fetched, because the call fails or
    because no object of that name is stored, either [Reconcile] returns
    that error with an empty result; the Get call is the only thing that
    happened: no other client call, no clock reading, no log line, and the
    cluster is as before. *)
Theorem X1_get_failure_stops_everything env req w :
  (forall err, getFault env = Some err ->
     Controller.Reconcile env req w
     = (Return (mkResult 0) (Some err), withCall (CallGet (Req req)) w)
     /\ Part000.Reconcile env req w
        = (Return (mkResult 0) (Some err), withCall (CallGet (Req req)) w))
  /\ (getFault env = None ->
      match object (cluster w) with
      | Some o => sameName (ObjectMeta o) (Req req) = false
      | None => True
      end ->
      Controller.Reconcile env req w
      = (Return (mkResult 0) (Some notFound), withCall (CallGet (Req req)) w)
      /\ Part000.Reconcile env req w
         = (Return (mkResult 0) (Some notFound), withCall (CallGet (Req req)) w)).
Proof.
  split.
  - intros err H. pose proof (prelude_get_fault env req w err H) as Hpre.
    now rewrite (Controller_prelude_fails _ _ _ _ _ Hpre),
                (Part000_prelude_fails _ _ _ _ _ Hpre).
  - intros H Ho. pose proof (prelude_get_missing env req w H Ho) as Hpre.
    now rewrite (Controller_prelude_fails _ _ _ _ _ Hpre),
                (Part000_prelude_fails _ _ _ _ _ Hpre).
Qed.

(** X1 when the Get call fails, and when the request names an object that
    is not the stored one. *)
Lemma X1_get_failure_stops_everything_witness :
  Part000.Reconcile Edge.getFails Sample.request
    (Scenario.fresh "*/5 * * * *" Sample.nginx)
  = (Return (mkResult 0) (Some (errorString "get failed")),
     withCall (CallGet Sample.key) (Scenario.fresh "*/5 * * * *" Sample.nginx))
  /\ Controller.Reconcile Scenario.soon
       (mkRequest (mkNamespacedName "default" "another"))
       (Scenario.fresh "*/5 * * * *" Sample.nginx)
     = (Return (mkResult 0) (Some notFound),
        withCall (CallGet (mkNamespacedName "default" "another"))
          (Scenario.fresh "*/5 * * * *" Sample.nginx)).
Proof.
  split.
  - exact (proj2 (proj1 (X1_get_failure_stops_everything Edge.getFails Sample.request
                           (Scenario.fresh "*/5 * * * *" Sample.nginx))
                        (errorString "get failed") eq_refl)).
  - exact (proj1 (proj2 (X1_get_failure_stops_everything Scenario.soon
                           (mkRequest (mkNamespacedName "default" "another"))
                           (Scenario.fresh "*/5 * * * *" Sample.nginx))
                        eq_refl eq_refl)).
Defined.

(** X2: when the object names a time zone that cannot be loaded, either
    [Reconcile] returns the loading error with an empty result after
    logging it; the schedule has been parsed, but the clock has not been
    read, no pod has been listed or deleted and the cluster is as before.
    An empty time zone is never looked up. *)
Theorem X2_time_zone_failure env req w obj sch :
  getFault env = None ->
  object (cluster w) = Some obj ->
  sameName (ObjectMeta obj) (Req req) = true ->
  parseCronSchedule env (Schedule (Spec obj)) = Value sch ->
  (forall err,
     TimeZone (Spec obj) <> "" ->
     LoadLocation env (TimeZone (Spec obj)) = Err err ->
     let w' := withLog (LogError err "Failed to parse timezone")
                 (withCall (CallGet (Req req)) w) in
     Controller.Reconcile env req w = (Return (mkResult 0) (Some err), w')
     /\ Part000.Reconcile env req w = (Return (mkResult 0) (Some err), w'))
  /\ (TimeZone (Spec obj) = "" ->
      prelude env req w
      = (Ok (obj, sch, time.mkTime (wall env (ticks w)) time.Local),
         withTick (withCall (CallGet (Req req)) w))).
Proof.
  intros Hg Ho Hn Hp. split.
  - intros err Hz Hl. cbv zeta.
    assert (Hpre : prelude env req w
                   = (Fail err, withLog (LogError err "Failed to parse timezone")
                                  (withCall (CallGet (Req req)) w))).
    { unfold prelude. rewrite bind_run, Get_run, Hg, Ho, Hn, bind_run.
      unfold resolveSchedule. rewrite Hp. unfold ret at 1.
      rewrite bind_run. unfold currentTime.
      apply String.eqb_neq in Hz. rewrite Hz, Hl. reflexivity. }
    now rewrite (Controller_prelude_fails _ _ _ _ _ Hpre),
                (Part000_prelude_fails _ _ _ _ _ Hpre).
  - intros Hz. unfold prelude. rewrite bind_run, Get_run, Hg, Ho, Hn, bind_run.
    unfold resolveSchedule. rewrite Hp. unfold ret at 1.
    rewrite bind_run. unfold currentTime. rewrite Hz. reflexivity.
Qed.

(** X2 on an object whose time zone is unknown to the loader, and on one
    without a time zone. *)
Lemma X2_time_zone_failure_witness :
  fst (Part000.Reconcile Scenario.atNoon Sample.request
         (Sample.world Edge.badZone Scenario.nginxPods))
  = Return (mkResult 0) (Some (errorString "unknown time zone"))
  /\ fst (prelude Scenario.atNoon Sample.request
            (Sample.world Edge.noZone Scenario.nginxPods))
     = Ok (Edge.noZone, Sample.everyFiveMinutes, time.mkTime Sample.noon time.Local).
Proof.
  split.
  - destruct (X2_time_zone_failure Scenario.atNoon Sample.request
                (Sample.world Edge.badZone Scenario.nginxPods)
                Edge.badZone Sample.everyFiveMinutes
                eq_refl eq_refl eq_refl eq_refl) as [H _].
    assert (Hz : TimeZone (Spec Edge.badZone) <> "") by discriminate.
    destruct (H (errorString "unknown time zone") Hz eq_refl) as [_ Hp].
    rewrite Hp. reflexivity.
  - destruct (X2_time_zone_failure Scenario.atNoon Sample.request
                (Sample.world Edge.noZone Scenario.nginxPods)
                Edge.noZone Sample.everyFiveMinutes
                eq_refl eq_refl eq_refl eq_refl) as [_ H].
    rewrite (H eq_refl). reflexivity.
Defined.

(** * What a run touches *)

Lemma sameSpec_refl a : sameSpec a a.
Proof. destruct a; simpl; auto. Qed.

Lemma deletesOnly_nil env w w' :
  pods (cluster w') = pods (cluster w) ->
  filter isDelete (calls w') = filter isDelete (calls w) ->
  sameSpec (object (cluster w)) (object (cluster w')) ->
  deletesOnly env [] w w'.
Proof.
  intros Hp Hc Ho. unfold deletesOnly. rewrite Hp, Hc. simpl.
  rewrite app_nil_r, filter_all by reflexivity. auto.
Qed.

Ltac count_deletes :=
  simpl; rewrite ?filter_app; simpl;
  rewrite ?filter_isDelete_deletes, ?app_nil_r, <- ?app_assoc; simpl.

Lemma Controller_footprint env req w :
  exists ps,
    (ps = [] \/ ps = listed env (Namespace (Req req)) (objectSelector env (cluster w))
                       (cluster w))
    /\ deletesOnly env ps w (snd (Controller.Reconcile env req w)).
Proof.
  destruct (prelude_cases env req w)
    as [(obj & sch & now & Hpre & _ & Ho & _)|(e & l & Hpre)].
  2:{ rewrite (Controller_prelude_fails _ _ _ _ _ Hpre). exists []. split; [auto|].
      apply deletesOnly_nil; count_deletes; auto using sameSpec_refl. }
  destruct (time.After (cron.Next sch now) now) eqn:Hdue.
  { rewrite (Controller_waits _ _ _ _ _ _ _ Hpre Hdue). exists []. split; [auto|].
    apply deletesOnly_nil; count_deletes; auto using sameSpec_refl. }
  destruct (listFault env) as [e|] eqn:Hl.
  { rewrite (Controller_list_fails _ _ _ _ _ _ _ Hpre e Hdue Hl). exists [].
    split; [auto|].
    apply deletesOnly_nil; count_deletes; auto using sameSpec_refl. }
  eexists. split; [right; reflexivity|].
  unfold objectSelector. rewrite Ho.
  destruct (updateFault env) as [e|] eqn:Hu.
  - rewrite (Controller_update_fails _ _ _ _ _ _ _ Hpre e Hdue Hl Hu).
    unfold deletesOnly. count_deletes. repeat split. apply sameSpec_refl.
  - rewrite (Controller_restarts _ _ _ _ _ _ _ Hpre Hdue Hl Hu).
    unfold deletesOnly. count_deletes. rewrite Ho. simpl. repeat split.
Qed.

Lemma Part000_footprint env req w :
  exists ps,
    (ps = [] \/ ps = listed env (Namespace (Req req)) (objectSelector env (cluster w))
                       (cluster w))
    /\ deletesOnly env ps w (snd (Part000.Reconcile env req w)).
Proof.
  destruct (prelude_cases env req w)
    as [(obj & sch & now & Hpre & _ & Ho & _)|(e & l & Hpre)].
  2:{ rewrite (Part000_prelude_fails _ _ _ _ _ Hpre). exists []. split; [auto|].
      apply deletesOnly_nil; count_deletes; auto using sameSpec_refl. }
  destruct (Part000.needsRestart (cron.Next sch now) now) eqn:Hdue.
  - destruct (updateFault env) as [e|] eqn:Hu.
    { rewrite (Part000_restart_update_fails _ _ _ _ _ _ _ Hpre e Hdue Hu).
      exists []. split; [auto|].
      apply deletesOnly_nil; count_deletes; auto using sameSpec_refl. }
    destruct (listFault env) as [e|] eqn:Hl.
    + rewrite (Part000_list_fails _ _ _ _ _ _ _ Hpre e Hdue Hu Hl).
      exists []. split; [auto|].
      destruct (dropError _);
        (apply deletesOnly_nil; count_deletes; auto; rewrite Ho; simpl; auto).
    + rewrite (Part000_restarts _ _ _ _ _ _ _ Hpre Hdue Hu Hl).
      eexists. split; [right; reflexivity|].
      unfold objectSelector. rewrite Ho.
      unfold deletesOnly. count_deletes. rewrite Ho. simpl. repeat split.
  - exists []. split; [auto|].
    destruct (LastRestartTime (Status obj)) as [t|] eqn:Hs.
    { rewrite (Part000_noop _ _ _ _ _ _ _ Hpre t Hdue Hs).
      apply deletesOnly_nil; count_deletes; auto using sameSpec_refl. }
    destruct (updateFault env) as [e|] eqn:Hu.
    + rewrite (Part000_initialize_fails _ _ _ _ _ _ _ Hpre e Hdue Hs Hu).
      apply deletesOnly_nil; count_deletes; auto using sameSpec_refl.
    + rewrite (Part000_initializes _ _ _ _ _ _ _ Hpre Hdue Hs Hu).
      apply deletesOnly_nil; count_deletes; auto; rewrite Ho; simpl; auto.
Qed.





(** X4: a run of either [Reconcile] never creates or removes the stored
    object and never changes its name or its spec: the status is the only
    part of it that is ever written. *)
Theorem X4_object_spec_is_never_written env req w :
  sameSpec (object (cluster w)) (object (cluster (snd (Controller.Reconcile env req w))))
  /\ sameSpec (object (cluster w)) (object (cluster (snd (Part000.Reconcile env req w)))).
Proof.
  split.
  - destruct (Controller_footprint env req w) as (ps & _ & _ & _ & H). exact H.
  - destruct (Part000_footprint env req w) as (ps & _ & _ & _ & H). exact H.
Qed.

(** * A failed status write *)

(** X5: in [part_000] the status write comes first, so when it fails
    nothing else happens: whether a restart was due or the status was to be
    initialised, [Reconcile] logs and returns the error of the write, no
    pod has been listed or deleted, and the cluster is as before. *)
Theorem X5_part000_failed_status_write_stops_the_restart
    env req w obj sch now w0 err :
  prelude env req w = (Ok (obj, sch, now), w0) ->
  updateFault env = Some err ->
  let r := Part000.Reconcile env req w in
  let write := CallStatusUpdate (setLastRestartTime obj now) in
  (Part000.needsRestart (cron.Next sch now) now = true ->
     fst r = Return (mkResult 0) (Some err)
     /\ cluster (snd r) = cluster w
     /\ calls (snd r) = calls w ++ [CallGet (Req req); write]
     /\ In (LogError err "Failed to update AutoRestartPod status") (logs (snd r)))
  /\ (Part000.needsRestart (cron.Next sch now) now = false ->
      LastRestartTime (Status obj) = None ->
      fst r = Return (mkResult 0) (Some err)
      /\ cluster (snd r) = cluster w
      /\ calls (snd r) = calls w ++ [CallGet (Req req); write]
      /\ In (LogError err "Failed to initialize LastRestartTime status") (logs (snd r))).
Proof.
  intros Hpre Hu. cbv zeta.
  pose proof (prelude_world _ _ _ _ _ _ _ Hpre) as Hw0.
  split.
  - intros Hdue.
    rewrite (Part000_restart_update_fails _ _ _ _ _ _ _ Hpre err Hdue Hu), Hw0.
    simpl. rewrite <- app_assoc. repeat split.
    apply in_or_app. right. left. reflexivity.
  - intros Hdue Hs.
    rewrite (Part000_initialize_fails _ _ _ _ _ _ _ Hpre err Hdue Hs Hu), Hw0.
    simpl. rewrite <- app_assoc. repeat split.
    apply in_or_app. right. left. reflexivity.
Qed.

(** X5 thirty seconds before the activation (a restart is due) and on the
    boundary (the status is to be initialised), with a failing write. *)
Lemma X5_part000_failed_status_write_stops_the_restart_witness :
  let w := Scenario.fresh "*/5 * * * *" Sample.nginx in
  (fst (Part000.Reconcile Edge.updateFails Sample.request w)
   = Return (mkResult 0) (Some (errorString "conflict"))
   /\ cluster (snd (Part000.Reconcile Edge.updateFails Sample.request w)) = cluster w)
  /\ (fst (Part000.Reconcile Edge.updateFailsAtNoon Sample.request w)
      = Return (mkResult 0) (Some (errorString "conflict"))
      /\ cluster (snd (Part000.Reconcile Edge.updateFailsAtNoon Sample.request w))
         = cluster w).
Proof.
  cbv zeta. split.
  - assert (Hpre : prelude Edge.updateFails Sample.request
                     (Scenario.fresh "*/5 * * * *" Sample.nginx)
                   = (Ok (Sample.resource "*/5 * * * *" Sample.nginx None,
                          Sample.everyFiveMinutes,
                          Scenario.stamp Scenario.halfMinuteEarly),
                      withTick (withCall (CallGet Sample.key)
                        (Scenario.fresh "*/5 * * * *" Sample.nginx))))
      by reflexivity.
    assert (Hdue : Part000.needsRestart
                     (cron.Next Sample.everyFiveMinutes
                        (Scenario.stamp Scenario.halfMinuteEarly))
                     (Scenario.stamp Scenario.halfMinuteEarly) = true)
      by (vm_compute; reflexivity).
    destruct (X5_part000_failed_status_write_stops_the_restart _ _ _ _ _ _ _
                (errorString "conflict") Hpre eq_refl) as [H _].
    destruct (H Hdue) as (H1 & H2 & _). split; assumption.
  - assert (Hpre : prelude Edge.updateFailsAtNoon Sample.request
                     (Scenario.fresh "*/5 * * * *" Sample.nginx)
                   = (Ok (Sample.resource "*/5 * * * *" Sample.nginx None,
                          Sample.everyFiveMinutes, Scenario.stamp Sample.noon),
                      withTick (withCall (CallGet Sample.key)
                        (Scenario.fresh "*/5 * * * *" Sample.nginx))))
      by reflexivity.
    assert (Hdue : Part000.needsRestart
                     (cron.Next Sample.everyFiveMinutes (Scenario.stamp Sample.noon))
                     (Scenario.stamp Sample.noon) = false)
      by (vm_compute; reflexivity).
    destruct (X5_part000_failed_status_write_stops_the_restart _ _ _ _ _ _ _
                (errorString "conflict") Hpre eq_refl) as [_ H].
    destruct (H Hdue eq_refl) as (H1 & H2 & _). split; assumption.
Defined.

(** X6: in the controller file the status write comes last, so when it
    fails the deletions have already been made and are not undone:
    [Reconcile] returns the error of the write, every matched pod was the
    target of a delete call, the pods whose deletion went through are gone,
    and the stored restart time is what it was. *)
Theorem X6_controller_failed_status_write_after_deletions
    env req w obj sch now w0 err :
  prelude env req w = (Ok (obj, sch, now), w0) ->
  time.After (cron.Next sch now) now = false ->
  listFault env = None ->
  updateFault env = Some err ->
  let r := Controller.Reconcile env req w in
  let sel := dropError (LabelSelectorAsSelector env (Selector (Spec obj))) in
  let ps := listed env (Namespace (Req req)) sel (cluster w) in
  fst r = Return (mkResult 0) (Some err)
  /\ filter isDelete (calls (snd r)) = filter isDelete (calls w) ++ map CallDelete ps
  /\ pods (cluster (snd r)) = filter (survives env ps) (pods (cluster w))
  /\ storedLastRestartTime (cluster (snd r)) = storedLastRestartTime (cluster w).
Proof.
  intros Hpre Hdue Hl Hu. cbv zeta.
  rewrite (Controller_update_fails _ _ _ _ _ _ _ Hpre err Hdue Hl Hu).
  rewrite (prelude_world _ _ _ _ _ _ _ Hpre).
  split; [reflexivity|]. split; [count_deletes; reflexivity|].
  split; reflexivity.
Qed.

(** X6 under a schedule without activation: the three pods are gone, the
    status is still unset, and the error of the write is returned. *)
Lemma X6_controller_failed_status_write_after_deletions_witness :
  let r := Controller.Reconcile Edge.updateFailsAtNoon Sample.request Edge.lateConflict in
  fst r = Return (mkResult 0) (Some (errorString "conflict"))
  /\ pods (cluster (snd r)) = [Sample.other]
  /\ storedLastRestartTime (cluster (snd r)) = None.
Proof.
  cbv zeta.
  assert (Hpre : prelude Edge.updateFailsAtNoon Sample.request Edge.lateConflict
                 = (Ok (Sample.resource "0 0 30 2 *" Sample.nginx None,
                        Sample.unsatisfiable, Scenario.stamp Sample.noon),
                    withTick (withCall (CallGet Sample.key) Edge.lateConflict)))
    by reflexivity.
  destruct (X6_controller_failed_status_write_after_deletions _ _ _ _ _ _ _
              (errorString "conflict") Hpre eq_refl eq_refl eq_refl)
    as (H1 & _ & H3 & H4).
  split; [exact H1|]. split; [rewrite H3; reflexivity|rewrite H4; reflexivity].
Defined.

(** * The requeue after a restart in the controller file *)

(** X7: after a restart the controller file computes the requeue with
    [time.Until] from the activation it had found not to be after [now].
    With a clock that has not gone back between the two readings, the
    duration it returns, without error, is therefore never positive. *)
Theorem X7_controller_requeue_after_restart_not_positive
    env req w obj sch now w0 :
  prelude env req w = (Ok (obj, sch, now), w0) ->
  time.After (cron.Next sch now) now = false ->
  listFault env = None ->
  updateFault env = None ->
  wall env (ticks w) <= wall env (S (ticks w)) ->
  let later := time.mkTime (wall env (S (ticks w))) time.Local in
  fst (Controller.Reconcile env req w)
  = Return (mkResult (time.Sub (cron.Next sch now) later)) None
  /\ time.Sub (cron.Next sch now) later <= 0.
Proof.
  intros Hpre Hdue Hl Hu Hclock. cbv zeta.
  rewrite (Controller_restarts _ _ _ _ _ _ _ Hpre Hdue Hl Hu).
  destruct (prelude_ok _ _ _ _ _ _ _ Hpre) as (Hw0 & _ & _ & _ & _ & Hnow).
  rewrite Hw0. simpl. split; [reflexivity|].
  apply Sub_not_positive. simpl.
  apply After_false_iff in Hdue. lia.
Qed.

(** X7 under a schedule without activation, with a clock that advances by
    one second per reading. *)
Lemma X7_controller_requeue_after_restart_not_positive_witness :
  fst (Controller.Reconcile Scenario.atNoon Sample.request
         (Scenario.fresh "0 0 30 2 *" Sample.nginx))
  = Return (mkResult (time.Sub time.zero
                        (time.mkTime (Sample.noon + 1 * time.Second) time.Local))) None
  /\ time.Sub time.zero (time.mkTime (Sample.noon + 1 * time.Second) time.Local) <= 0.
Proof.
  assert (Hpre : prelude Scenario.atNoon Sample.request
                   (Scenario.fresh "0 0 30 2 *" Sample.nginx)
                 = (Ok (Sample.resource "0 0 30 2 *" Sample.nginx None,
                        Sample.unsatisfiable, Scenario.stamp Sample.noon),
                    withTick (withCall (CallGet Sample.key)
                      (Scenario.fresh "0 0 30 2 *" Sample.nginx))))
    by reflexivity.
  assert (Hclock : wall Scenario.atNoon
                     (ticks (Scenario.fresh "0 0 30 2 *" Sample.nginx))
                   <= wall Scenario.atNoon
                        (S (ticks (Scenario.fresh "0 0 30 2 *" Sample.nginx))))
    by (vm_compute; discriminate).
  exact (X7_controller_requeue_after_restart_not_positive _ _ _ _ _ _ _
           Hpre eq_refl eq_refl eq_refl Hclock).
Defined.

(** * The restart window of [part_000] *)

(** X9: in [part_000], when the status write and the listing succeed, the
    pods are restarted exactly when the next activation is less than one
    minute of real time after [now]; the test [!nextRun.After(now)] and the
    clamping of [Sub] add nothing to that.  Inside the window the status is
    written, then the pods are listed and deleted; from one minute on, no
    pod is listed or deleted. *)
Theorem X9_part000_restart_window env req w obj sch now w0 :
  prelude env req w = (Ok (obj, sch, now), w0) ->
  updateFault env = None ->
  listFault env = None ->
  let r := Part000.Reconcile env req w in
  let gap := time.instant (cron.Next sch now) - time.instant now in
  let ns := Namespace (Req req) in
  let sel := dropError (LabelSelectorAsSelector env (Selector (Spec obj))) in
  (gap < time.Minute ->
     calls (snd r)
     = calls w ++ CallGet (Req req) :: CallStatusUpdate (setLastRestartTime obj now)
               :: CallList ns sel :: map CallDelete (listed env ns sel (cluster w))
     /\ storedLastRestartTime (cluster (snd r)) = Some now)
  /\ (time.Minute <= gap ->
      filter isList (calls (snd r)) = filter isList (calls w)
      /\ filter isDelete (calls (snd r)) = filter isDelete (calls w)
      /\ pods (cluster (snd r)) = pods (cluster w)).
Proof.
  intros Hpre Hu Hl. cbv zeta.
  pose proof (prelude_world _ _ _ _ _ _ _ Hpre) as Hw0.
  split.
  - intros Hgap.
    assert (Hdue : Part000.needsRestart (cron.Next sch now) now = true)
      by (apply needsRestart_iff; right; exact Hgap).
    rewrite (Part000_restarts _ _ _ _ _ _ _ Hpre Hdue Hu Hl), Hw0.
    simpl. rewrite <- !app_assoc. split; reflexivity.
  - intros Hgap. apply needsRestart_false_iff in Hgap.
    destruct (LastRestartTime (Status obj)) as [t|] eqn:Hs.
    + rewrite (Part000_noop _ _ _ _ _ _ _ Hpre t Hgap Hs), Hw0.
      simpl. rewrite !filter_app. simpl. now rewrite !app_nil_r.
    + rewrite (Part000_initializes _ _ _ _ _ _ _ Hpre Hgap Hs Hu), Hw0.
      simpl. rewrite !filter_app. simpl. now rewrite !app_nil_r.
Qed.

(** X9 on the edge of the window: exactly one minute before the activation
    no pod is deleted; one nanosecond later all three are. *)
Lemma X9_part000_restart_window_witness :
  let w := Scenario.fresh "*/5 * * * *" Sample.nginx in
  pods (cluster (snd (Part000.Reconcile Edge.minuteEarly Sample.request w)))
  = pods (cluster w)
  /\ storedLastRestartTime
       (cluster (snd (Part000.Reconcile Edge.justInside Sample.request w)))
     = Some (Scenario.stamp (Sample.noon - time.Minute + time.Nanosecond)).
Proof.
  cbv zeta. split.
  - assert (Hpre : prelude Edge.minuteEarly Sample.request
                     (Scenario.fresh "*/5 * * * *" Sample.nginx)
                   = (Ok (Sample.resource "*/5 * * * *" Sample.nginx None,
                          Sample.everyFiveMinutes,
                          Scenario.stamp (Sample.noon - time.Minute)),
                      withTick (withCall (CallGet Sample.key)
                        (Scenario.fresh "*/5 * * * *" Sample.nginx))))
      by reflexivity.
    destruct (X9_part000_restart_window _ _ _ _ _ _ _ Hpre eq_refl eq_refl) as [_ H].
    assert (Hgap : time.Minute
                   <= time.instant (cron.Next Sample.everyFiveMinutes
                                      (Scenario.stamp (Sample.noon - time.Minute)))
                      - time.instant (Scenario.stamp (Sample.noon - time.Minute)))
      by (vm_compute; discriminate).
    exact (proj2 (proj2 (H Hgap))).
  - assert (Hpre : prelude Edge.justInside Sample.request
                     (Scenario.fresh "*/5 * * * *" Sample.nginx)
                   = (Ok (Sample.resource "*/5 * * * *" Sample.nginx None,
                          Sample.everyFiveMinutes,
                          Scenario.stamp (Sample.noon - time.Minute + time.Nanosecond)),
                      withTick (withCall (CallGet Sample.key)
                        (Scenario.fresh "*/5 * * * *" Sample.nginx))))
      by reflexivity.
    destruct (X9_part000_restart_window _ _ _ _ _ _ _ Hpre eq_refl eq_refl) as [H _].
    assert (Hgap : time.instant (cron.Next Sample.everyFiveMinutes
                       (Scenario.stamp (Sample.noon - time.Minute + time.Nanosecond)))
                   - time.instant
                       (Scenario.stamp (Sample.noon - time.Minute + time.Nanosecond))
                   < time.Minute)
      by (vm_compute; reflexivity).
    exact (proj2 (H Hgap)).
Defined.

(** * A failed listing with a malformed selector in [part_000] *)

(** X10: in [part_000], when a restart is due, the selector of the object
    cannot be resolved and the listing fails, [Reconcile] does not return:
    reporting the failure calls [String] on the nil selector, which panics.
    By then the status carrying [now] has been stored; no pod has been
    deleted. *)
Theorem X10_part000_panics_on_failed_listing_with_nil_selector
    env req w obj sch now w0 selErr listErr :
  prelude env req w = (Ok (obj, sch, now), w0) ->
  Part000.needsRestart (cron.Next sch now) now = true ->
  updateFault env = None ->
  LabelSelectorAsSelector env (Selector (Spec obj)) = Err selErr ->
  listFault env = Some listErr ->
  let r := Part000.Reconcile env req w in
  (exists msg, fst r = Panicked msg)
  /\ storedLastRestartTime (cluster (snd r)) = Some now
  /\ pods (cluster (snd r)) = pods (cluster w)
  /\ filter isDelete (calls (snd r)) = filter isDelete (calls w).
Proof.
  intros Hpre Hdue Hu Hsel Hl. cbv zeta.
  rewrite (Part000_list_fails _ _ _ _ _ _ _ Hpre listErr Hdue Hu Hl).
  rewrite Hsel. simpl dropError. cbv iota.
  rewrite (prelude_world _ _ _ _ _ _ _ Hpre).
  split; [eexists; reflexivity|]. split; [reflexivity|]. split; [reflexivity|].
  simpl. rewrite !filter_app. simpl. now rewrite !app_nil_r.
Qed.

(** X10 thirty seconds before the activation, with a selector whose
    operator is not a set operator and a listing that fails. *)
Lemma X10_part000_panics_on_failed_listing_with_nil_selector_witness :
  fst (Part000.Reconcile Scenario.listFails Sample.request Edge.brokenSelector)
  = Panicked "invalid memory address or nil pointer dereference"
  /\ storedLastRestartTime
       (cluster (snd (Part000.Reconcile Scenario.listFails Sample.request
                        Edge.brokenSelector)))
     = Some (Scenario.stamp Scenario.halfMinuteEarly).
Proof.
  assert (Hpre : prelude Scenario.listFails Sample.request Edge.brokenSelector
                 = (Ok (Sample.resource "*/5 * * * *" Sample.malformed None,
                        Sample.everyFiveMinutes,
                        Scenario.stamp Scenario.halfMinuteEarly),
                    withTick (withCall (CallGet Sample.key) Edge.brokenSelector)))
    by reflexivity.
  assert (Hdue : Part000.needsRestart
                   (cron.Next Sample.everyFiveMinutes
                      (Scenario.stamp Scenario.halfMinuteEarly))
                   (Scenario.stamp Scenario.halfMinuteEarly) = true)
    by (vm_compute; reflexivity).
  destruct (X10_part000_panics_on_failed_listing_with_nil_selector _ _ _ _ _ _ _
              (errorString "not a valid label selector operator")
              (errorString "list failed")
              Hpre Hdue eq_refl eq_refl eq_refl) as ((msg & H1) & H2 & _).
  split; [|exact H2].
  vm_compute. reflexivity.
Defined.

(** * A selector that matches nothing *)

(** X11: when a restart is due and the listing returns no pod, either
    [Reconcile] still records the restart: no delete call is issued, the
    pods of the cluster are untouched, the status carrying [now] is stored
    and no error is returned. *)
Theorem X11_restart_of_no_pod_is_still_recorded env req w obj sch now w0 :
  prelude env req w = (Ok (obj, sch, now), w0) ->
  listFault env = None ->
  updateFault env = None ->
  listed env (Namespace (Req req))
    (dropError (LabelSelectorAsSelector env (Selector (Spec obj)))) (cluster w) = [] ->
  (time.After (cron.Next sch now) now = false ->
     let r := Controller.Reconcile env req w in
     (exists res, fst r = Return res None)
     /\ filter isDelete (calls (snd r)) = filter isDelete (calls w)
     /\ pods (cluster (snd r)) = pods (cluster w)
     /\ storedLastRestartTime (cluster (snd r)) = Some now)
  /\ (Part000.needsRestart (cron.Next sch now) now = true ->
     let r := Part000.Reconcile env req w in
     (exists res, fst r = Return res None)
     /\ filter isDelete (calls (snd r)) = filter isDelete (calls w)
     /\ pods (cluster (snd r)) = pods (cluster w)
     /\ storedLastRestartTime (cluster (snd r)) = Some now).
Proof.
  intros Hpre Hl Hu Hnone. cbv zeta.
  pose proof (prelude_world _ _ _ _ _ _ _ Hpre) as Hw0.
  split; intros Hdue.
  - rewrite (Controller_restarts _ _ _ _ _ _ _ Hpre Hdue Hl Hu), Hw0.
    cbn [snd fst withTick withStatus withCall afterDeletes calls cluster pods object].
    rewrite Hnone. split; [eexists; reflexivity|].
    split; [count_deletes; reflexivity|]. split; [|reflexivity].
    apply filter_all. reflexivity.
  - rewrite (Part000_restarts _ _ _ _ _ _ _ Hpre Hdue Hu Hl), Hw0.
    cbn [snd fst withTick withStatus withCall withLog afterDeletes calls cluster pods
         object].
    assert (Hnone' :
      listed env (Namespace (Req req))
        (dropError (LabelSelectorAsSelector env (Selector (Spec obj))))
        {| object := Some (mkAutoRestartPod (ObjectMeta obj) (Spec obj)
                             (mkStatus (Some now)));
           pods := pods (cluster w) |} = [])
      by exact Hnone.
    rewrite Hnone'. split; [eexists; reflexivity|].
    split; [count_deletes; reflexivity|]. split; [|reflexivity].
    apply filter_all. reflexivity.
Qed.

(** X11 with a selector for an application that has no pod, under a
    schedule without activation, for which both functions restart. *)
Lemma X11_restart_of_no_pod_is_still_recorded_witness :
  let w := Scenario.fresh "0 0 30 2 *" Edge.nobody in
  storedLastRestartTime (cluster (snd (Controller.Reconcile Scenario.atNoon Sample.request w)))
  = Some (Scenario.stamp Sample.noon)
  /\ storedLastRestartTime (cluster (snd (Part000.Reconcile Scenario.atNoon Sample.request w)))
     = Some (Scenario.stamp Sample.noon)
  /\ pods (cluster (snd (Part000.Reconcile Scenario.atNoon Sample.request w)))
     = pods (cluster w).
Proof.
  cbv zeta.
  assert (Hpre : prelude Scenario.atNoon Sample.request
                   (Scenario.fresh "0 0 30 2 *" Edge.nobody)
                 = (Ok (Sample.resource "0 0 30 2 *" Edge.nobody None,
                        Sample.unsatisfiable, Scenario.stamp Sample.noon),
                    withTick (withCall (CallGet Sample.key)
                      (Scenario.fresh "0 0 30 2 *" Edge.nobody))))
    by reflexivity.
  destruct (X11_restart_of_no_pod_is_still_recorded _ _ _ _ _ _ _
              Hpre eq_refl eq_refl eq_refl) as [Hc Hp].
  destruct (Hc eq_refl) as (_ & _ & _ & Hc4).
  destruct (Hp eq_refl) as (_ & _ & Hp3 & Hp4).
  split; [exact Hc4|]. split; [exact Hp4|exact Hp3].
Defined.

(** * One run after another in [part_000] *)

(** X12: once a run of [part_000] has returned without error, a later run
    on the world it left, with whatever collaborators, that fetches the
    object and finds the next activation at least a minute away changes
    nothing: it writes no status, lists and deletes nothing, and returns
    the time to wait.  The status write of the first observation happens
    at most once. *)
Theorem X12_part000_second_quiet_run_is_a_noop
    env req w res w1 env2 obj sch now w0 :
  Part000.Reconcile env req w = (Return res None, w1) ->
  prelude env2 req w1 = (Ok (obj, sch, now), w0) ->
  Part000.needsRestart (cron.Next sch now) now = false ->
  let r := Part000.Reconcile env2 req w1 in
  fst r = Return (mkResult (time.Sub (cron.Next sch now) now)) None
  /\ cluster (snd r) = cluster w1
  /\ calls (snd r) = calls w1 ++ [CallGet (Req req)].
Proof.
  intros Hfirst Hpre Hdue. cbv zeta.
  pose proof (Part000_never_left_unset _ _ _ _ _ Hfirst) as Hset.
  destruct (prelude_ok _ _ _ _ _ _ _ Hpre) as (Hw0 & _ & Ho & _).
  unfold storedLastRestartTime in Hset. rewrite Ho in Hset.
  destruct (LastRestartTime (Status obj)) as [t|] eqn:Hs; [|congruence].
  rewrite (Part000_noop _ _ _ _ _ _ _ Hpre t Hdue Hs), Hw0.
  repeat split.
Qed.

(** X12 on the boundary: the first run stores the first observation, the
    second, one second later, leaves the world it found. *)
Lemma X12_part000_second_quiet_run_is_a_noop_witness :
  storedLastRestartTime (cluster Edge.afterFirstRun) = Some (Scenario.stamp Sample.noon)
  /\ cluster (snd (Part000.Reconcile Scenario.atNoon Sample.request Edge.afterFirstRun))
     = cluster Edge.afterFirstRun.
Proof.
  split; [vm_compute; reflexivity|].
  assert (Hfirst : Part000.Reconcile Scenario.atNoon Sample.request
                     (Scenario.fresh "*/5 * * * *" Sample.nginx)
                   = (Return (mkResult (5 * time.Minute)) None, Edge.afterFirstRun)).
  { apply injective_projections; [vm_compute; reflexivity|reflexivity]. }
  assert (Hpre : prelude Scenario.atNoon Sample.request Edge.afterFirstRun
                 = (Ok (Sample.resource "*/5 * * * *" Sample.nginx
                          (Some (Scenario.stamp Sample.noon)),
                        Sample.everyFiveMinutes,
                        Scenario.stamp (Sample.noon + time.Second)),
                    withTick (withCall (CallGet Sample.key) Edge.afterFirstRun)))
    by reflexivity.
  assert (Hdue : Part000.needsRestart
                   (cron.Next Sample.everyFiveMinutes
                      (Scenario.stamp (Sample.noon + time.Second)))
                   (Scenario.stamp (Sample.noon + time.Second)) = false)
    by (vm_compute; reflexivity).
  exact (proj1 (proj2 (X12_part000_second_quiet_run_is_a_noop _ _ _ _ _ _ _ _ _ _
                         Hfirst Hpre Hdue))).
Defined.

(** * The log of a restart *)

(** X13: a restart writes one log line per matched pod, in the order of
    the listing: an error line carrying the error of the deletion when it
    failed, an info line otherwise.  In [part_000] these lines follow the
    line that reports the time calculations; the controller file writes
    nothing else. *)
Theorem X13_one_log_line_per_pod env req w obj sch now w0 :
  prelude env req w = (Ok (obj, sch, now), w0) ->
  listFault env = None ->
  updateFault env = None ->
  let ns := Namespace (Req req) in
  let sel := dropError (LabelSelectorAsSelector env (Selector (Spec obj))) in
  let ps := listed env ns sel (cluster w) in
  (time.After (cron.Next sch now) now = false ->
     logs (snd (Controller.Reconcile env req w))
     = logs w ++ map (deleteLog env "Restart pod") ps)
  /\ (Part000.needsRestart (cron.Next sch now) now = true ->
     logs (snd (Part000.Reconcile env req w))
     = logs w ++ LogInfo "Time calculations" :: map (deleteLog env "Restarted pod") ps).
Proof.
  intros Hpre Hl Hu. cbv zeta.
  pose proof (prelude_world _ _ _ _ _ _ _ Hpre) as Hw0.
  split; intros Hdue.
  - rewrite (Controller_restarts _ _ _ _ _ _ _ Hpre Hdue Hl Hu), Hw0. reflexivity.
  - rewrite (Part000_restarts _ _ _ _ _ _ _ Hpre Hdue Hu Hl), Hw0.
    simpl. rewrite <- app_assoc. reflexivity.
Qed.

(** X13 with three matched pods of which the second cannot be deleted. *)
Lemma X13_one_log_line_per_pod_witness :
  let w := Scenario.fresh "0 0 30 2 *" Sample.nginx in
  logs (snd (Controller.Reconcile Scenario.flakyAtNoon Sample.request w))
  = [LogInfo "Restart pod";
     LogError (errorString "delete failed") "Failed to delete pod";
     LogInfo "Restart pod"]
  /\ logs (snd (Part000.Reconcile Scenario.flakyAtNoon Sample.request w))
     = [LogInfo "Time calculations"; LogInfo "Restarted pod";
        LogError (errorString "delete failed") "Failed to delete pod";
        LogInfo "Restarted pod"].
Proof.
  cbv zeta.
  assert (Hpre : prelude Scenario.flakyAtNoon Sample.request
                   (Scenario.fresh "0 0 30 2 *" Sample.nginx)
                 = (Ok (Sample.resource "0 0 30 2 *" Sample.nginx None,
                        Sample.unsatisfiable, Scenario.stamp Sample.noon),
                    withTick (withCall (CallGet Sample.key)
                      (Scenario.fresh "0 0 30 2 *" Sample.nginx))))
    by reflexivity.
  destruct (X13_one_log_line_per_pod _ _ _ _ _ _ _ Hpre eq_refl eq_refl) as [Hc Hp].
  split.
  - rewrite (Hc eq_refl). reflexivity.
  - rewrite (Hp eq_refl). reflexivity.
Defined.

(** * No deletion without a recorded restart in [part_000] *)

(** X14: whatever the collaborators answer, a run of [part_000] that has
    issued at least one delete call has returned without error and has
    stored the clock reading it took as [now] in [status.lastRestartTime]:
    it never deletes a pod without the restart being on record. *)
Theorem X14_part000_deletes_only_after_recording env req w :
  let r := Part000.Reconcile env req w in
  filter isDelete (calls (snd r)) <> filter isDelete (calls w) ->
  (exists res, fst r = Return res None)
  /\ (exists t, storedLastRestartTime (cluster (snd r)) = Some t
                /\ time.instant t = wall env (ticks w)).
Proof.
  cbv zeta. intros Hdel.
  destruct (prelude_cases env req w)
    as [(obj & sch & now & Hpre & _ & Ho & _ & _ & Hnow)|(e & l & Hpre)].
  2:{ exfalso. apply Hdel. rewrite (Part000_prelude_fails _ _ _ _ _ Hpre).
      count_deletes. reflexivity. }
  destruct (Part000.needsRestart (cron.Next sch now) now) eqn:Hdue.
  - destruct (updateFault env) as [e|] eqn:Hu.
    { exfalso. apply Hdel.
      rewrite (Part000_restart_update_fails _ _ _ _ _ _ _ Hpre e Hdue Hu).
      count_deletes. reflexivity. }
    destruct (listFault env) as [e|] eqn:Hl.
    { exfalso. apply Hdel.
      rewrite (Part000_list_fails _ _ _ _ _ _ _ Hpre e Hdue Hu Hl).
      destruct (dropError _); count_deletes; reflexivity. }
    rewrite (Part000_restarts _ _ _ _ _ _ _ Hpre Hdue Hu Hl).
    split; [eexists; reflexivity|]. exists now. split; [reflexivity|exact Hnow].
  - exfalso. apply Hdel.
    destruct (LastRestartTime (Status obj)) as [t|] eqn:Hs.
    { rewrite (Part000_noop _ _ _ _ _ _ _ Hpre t Hdue Hs). count_deletes. reflexivity. }
    destruct (updateFault env) as [e|] eqn:Hu.
    + rewrite (Part000_initialize_fails _ _ _ _ _ _ _ Hpre e Hdue Hs Hu).
      count_deletes. reflexivity.
    + rewrite (Part000_initializes _ _ _ _ _ _ _ Hpre Hdue Hs Hu).
      count_deletes. reflexivity.
Qed.

(** X14 thirty seconds before the activation, where the three matched pods
    are the targets of delete calls. *)
Lemma X14_part000_deletes_only_after_recording_witness :
  exists t,
    storedLastRestartTime
      (cluster (snd (Part000.Reconcile Scenario.soon Sample.request
                       (Scenario.fresh "*/5 * * * *" Sample.nginx)))) = Some t
    /\ time.instant t = Scenario.halfMinuteEarly.
Proof.
  assert (Hdel : filter isDelete
                   (calls (snd (Part000.Reconcile Scenario.soon Sample.request
                                  (Scenario.fresh "*/5 * * * *" Sample.nginx))))
                 <> filter isDelete (calls (Scenario.fresh "*/5 * * * *" Sample.nginx)))
    by (vm_compute; discriminate).
  destruct (X14_part000_deletes_only_after_recording Scenario.soon Sample.request
              (Scenario.fresh "*/5 * * * *" Sample.nginx) Hdel) as (_ & t & Hs & Ht).
  exists t. split; [exact Hs|]. rewrite Ht. reflexivity.
Defined.
